(** * pymvc.model.datatypes: field descriptors and their conversions

    A shallow embedding of [src/pymvc/model/datatypes.py]: the descriptor
    classes derived from [ModelTypeBase], their constructors
    ([__init__]) and the conversion pair [create_instance] /
    [to_model_data].

    Python objects are records of optional attributes (an attribute that
    has not been assigned yet is [None]); a method that can raise returns
    in the [result] monad.  The collaborators that live in modules outside
    this file ([model_base], [hash_function]) and the one value computed
    when the module is imported ([uuid.uuid4()]) are fields of [Env]. *)

From Stdlib Require Import List String Ascii ZArith NArith Bool Lia.
From Stdlib Require Import Floats.SpecFloat.
Import ListNotations.

Set Warnings "-register-all".

Local Open Scope string_scope.
Local Open Scope Z_scope.

(** ** Exceptions and the error monad *)

(** The exception classes that occur.  The constructors of this module
    report a refused configuration with [TypeError]; [uuid.UUID] and
    [enum.Enum] report a value they cannot convert with [ValueError]. *)
Inductive PyExc : Type :=
  | TypeError
  | ValueError
  | AttributeError
  | LookupError
  | OtherError (name : string).

Inductive result (A : Type) : Type :=
  | Ok (a : A)
  | Raise (e : PyExc).

Arguments Ok {A} a.
Arguments Raise {A} e.

Definition bind {A B : Type} (m : result A) (k : A -> result B) : result B :=
  match m with
  | Ok a => k a
  | Raise e => Raise e
  end.

Notation "x <- m ;; k" := (bind m (fun x => k))
  (at level 61, m at next level, right associativity).

Fixpoint mapM {A B : Type} (f : A -> result B) (l : list A) : result (list B) :=
  match l with
  | [] => Ok []
  | a :: l' =>
      b <- f a ;;
      bs <- mapM f l' ;;
      Ok (b :: bs)
  end.

(** ** Python values *)

(** The values that fields carry.  [VEnum cls name value] is the member
    [name] of the enumeration class [cls], whose [.value] is [value];
    [VObj cls attrs] is an instance of the model class [cls] with its
    attribute namespace; [VHashed h] is an instance of
    [hash_function.Hashed] with internal state [h]. *)
Inductive PyVal : Type :=
  | VNone
  | VBool (b : bool)
  | VInt (z : Z)
  | VFloat (f : spec_float)
  | VStr (s : string)
  | VDatetime (us : Z)
  | VUuid (n : N)
  | VList (l : list PyVal)
  | VEnum (cls : string) (name : string) (value : PyVal)
  | VObj (cls : string) (attrs : list (string * PyVal))
  | VHashed (h : string).

Definition is_None (v : PyVal) : bool :=
  match v with
  | VNone => true
  | _ => false
  end.

(** *** Equality

    [py_eq a b] is [a == b] for two distinct objects: numbers compare by
    value across [bool], [int] and [float], a NaN is equal to nothing,
    itself included, an enumeration member is equal to itself only.
    Object identity is not modelled, so the shortcut that containers
    take on identical elements is not either. *)

Definition SF2Z_exact (f : spec_float) : option Z :=
  match f with
  | S754_zero _ => Some 0
  | S754_finite s m e =>
      let mag :=
        if 0 <=? e then Some (Z.pos m * 2 ^ e)
        else if Z.pos m mod 2 ^ (- e) =? 0 then Some (Z.pos m / 2 ^ (- e))
        else None in
      match mag with
      | Some v => Some (if s then - v else v)
      | None => None
      end
  | _ => None
  end.

Definition float_eq (f g : spec_float) : bool :=
  match SFcompare f g with
  | Some Eq => true
  | _ => false
  end.

Definition int_float_eq (z : Z) (f : spec_float) : bool :=
  match SF2Z_exact f with
  | Some v => z =? v
  | None => false
  end.

Fixpoint py_eq (a b : PyVal) {struct a} : bool :=
  match a, b with
  | VNone, VNone => true
  | VBool x, VBool y => Bool.eqb x y
  | VBool x, VInt y => Z.b2z x =? y
  | VInt x, VBool y => x =? Z.b2z y
  | VInt x, VInt y => x =? y
  | VBool x, VFloat g => int_float_eq (Z.b2z x) g
  | VInt x, VFloat g => int_float_eq x g
  | VFloat f, VBool y => int_float_eq (Z.b2z y) f
  | VFloat f, VInt y => int_float_eq y f
  | VFloat f, VFloat g => float_eq f g
  | VStr s, VStr t => String.eqb s t
  | VDatetime x, VDatetime y => x =? y
  | VUuid x, VUuid y => N.eqb x y
  | VList l, VList m =>
      (fix go (l m : list PyVal) {struct l} : bool :=
         match l, m with
         | [], [] => true
         | x :: l', y :: m' => py_eq x y && go l' m'
         | _, _ => false
         end) l m
  | VEnum c n _, VEnum d k _ => String.eqb c d && String.eqb n k
  | VObj c l, VObj d m =>
      String.eqb c d &&
      (fix go (l m : list (string * PyVal)) {struct l} : bool :=
         match l, m with
         | [], [] => true
         | (k, x) :: l', (j, y) :: m' => String.eqb k j && py_eq x y && go l' m'
         | _, _ => false
         end) l m
  | VHashed h, VHashed g => String.eqb h g
  | _, _ => false
  end.

(** ** The fragment of [str] and [uuid] that the descriptors call *)

(** Python strings are modelled as byte strings; the methods below work
    on the list of their characters. *)
Module Str.

Definition chars (s : string) : list ascii := list_ascii_of_string s.
Definition of_chars (l : list ascii) : string := string_of_list_ascii l.

Fixpoint is_prefix (p s : list ascii) : bool :=
  match p, s with
  | [], _ => true
  | a :: p', b :: s' => Ascii.eqb a b && is_prefix p' s'
  | _ :: _, [] => false
  end.

(** [s.replace(old, new)] for a non-empty [old]: occurrences are
    replaced from the left and do not overlap; [skip] counts the
    characters of a matched occurrence still to be dropped. *)
Fixpoint replace_from (old new : list ascii) (skip : nat) (s : list ascii)
  : list ascii :=
  match s with
  | [] => []
  | c :: s' =>
      match skip with
      | S k => replace_from old new k s'
      | O =>
          if is_prefix old s
          then (new ++ replace_from old new (Nat.pred (List.length old)) s')%list
          else c :: replace_from old new O s'
      end
  end.

Definition replace (old new : string) (s : list ascii) : list ascii :=
  replace_from (chars old) (chars new) O s.

Definition mem (c : ascii) (set : list ascii) : bool :=
  existsb (Ascii.eqb c) set.

Fixpoint lstrip (set : list ascii) (s : list ascii) : list ascii :=
  match s with
  | [] => []
  | c :: s' => if mem c set then lstrip set s' else s
  end.

Definition rstrip (set s : list ascii) : list ascii :=
  rev (lstrip set (rev s)).

(** [s.strip(set)] *)
Definition strip (set : string) (s : list ascii) : list ascii :=
  rstrip (chars set) (lstrip (chars set) s).

(** The whitespace that [int] skips around an ASCII text. *)
Definition whitespace : list ascii :=
  map ascii_of_nat [9; 10; 11; 12; 13; 32]%nat.

Definition hex_value (c : ascii) : option N :=
  let n := N_of_ascii c in
  if ((48 <=? n) && (n <=? 57))%N then Some (n - 48)%N
  else if ((97 <=? n) && (n <=? 102))%N then Some (n - 87)%N
  else if ((65 <=? n) && (n <=? 70))%N then Some (n - 55)%N
  else None.

(** The digits of [int(s, 16)] after sign and prefix: hexadecimal
    digits, single underscores allowed between digits ([und] tells
    whether an underscore may come next, [seen] whether the previous
    character was a digit). *)
Fixpoint digits16 (acc : N) (und seen : bool) (s : list ascii) : option N :=
  match s with
  | [] => if seen then Some acc else None
  | c :: s' =>
      if Ascii.eqb c "_"
      then if und then digits16 acc false false s' else None
      else match hex_value c with
           | Some d => digits16 (16 * acc + d)%N true true s'
           | None => None
           end
  end.

(** [int(s, 16)] on a string: surrounding whitespace, an optional sign,
    an optional [0x]/[0X] prefix (after which one underscore may
    follow), then the digits. *)
Definition int16 (s : list ascii) : option Z :=
  let s := rstrip whitespace (lstrip whitespace s) in
  let '(neg, s) :=
    match s with
    | c :: s' =>
        if Ascii.eqb c "-" then (true, s')
        else if Ascii.eqb c "+" then (false, s')
        else (false, s)
    | [] => (false, s)
    end in
  let '(pre, s) :=
    match s with
    | z :: x :: s' =>
        if Ascii.eqb z "0" && (Ascii.eqb x "x" || Ascii.eqb x "X")
        then (true, s') else (false, s)
    | _ => (false, s)
    end in
  match digits16 0 pre false s with
  | Some n => Some (if neg then - Z.of_N n else Z.of_N n)
  | None => None
  end.

End Str.

Module Uuid.

Definition hex_char (d : N) : ascii :=
  if (d <? 10)%N then ascii_of_N (48 + d) else ascii_of_N (87 + d).

(** The [k] low hexadecimal digits of [n], most significant first:
    ['%032x' % n] for [k = 32] and [n < 2^128], the range the [UUID]
    constructor enforces. *)
Fixpoint hex_digits (k : nat) (n : N) : list ascii :=
  match k with
  | O => []
  | S k' => (hex_digits k' (n / 16) ++ [hex_char (n mod 16)])%list
  end.

(** [str(u)] for [u : uuid.UUID] with [u.int = n]. *)
Definition to_str (n : N) : string :=
  let hex := hex_digits 32 n in
  let sl (a b : nat) := firstn (b - a) (skipn a hex) in
  let dash := "-"%char in
  Str.of_chars
    (sl 0 8 ++ dash :: sl 8 12 ++ dash :: sl 12 16 ++ dash :: sl 16 20
       ++ dash :: sl 20 32)%nat%list.

(** [uuid.UUID(hex)] for a string argument. *)
Definition of_str (s : string) : result N :=
  let hex := Str.replace "urn:" "" (Str.chars s) in
  let hex := Str.replace "uuid:" "" hex in
  let hex := Str.replace "-" "" (Str.strip "{}" hex) in
  if negb (List.length hex =? 32)%nat then Raise ValueError
  else match Str.int16 hex with
       | None => Raise ValueError
       | Some i =>
           if (0 <=? i) && (i <? 2 ^ 128)
           then Ok (Z.to_N i) else Raise ValueError
       end.

(** [uuid.UUID(value)]: the single positional argument is [hex]. *)
Definition UUID (value : PyVal) : result PyVal :=
  match value with
  | VStr s => n <- of_str s ;; Ok (VUuid n)
  | VNone => Raise TypeError
  | VDatetime _ => Raise TypeError
  | _ => Raise AttributeError
  end.

End Uuid.

(** ** Classes *)

(** A subclass of [enum.Enum]: its name and the [name = value] lines of
    its body, in definition order. *)
Record EnumDef : Type := {
  enum_name : string;
  enum_body : list (string * PyVal)
}.

(** A subclass of [model_base.Model] (that module is outside this file):
    its name and what its [get_primary_key_name()] returns. *)
Record ModelDef : Type := {
  model_name : string;
  get_primary_key_name : string
}.

(** The concrete subclasses of [ModelTypeBase]. *)
Inductive DescriptorClass : Type :=
  | StringType
  | IntType
  | FloatType
  | UniqueIdType
  | ListType
  | ForeignType
  | EnumType
  | DatetimeType
  | BoolType
  | HashType.

(** The class objects that reach [isinstance] and [issubclass] here.
    [Model] does not derive from [ModelTypeBase], and an [enum.Enum]
    subclass cannot (the two metaclasses conflict). *)
Inductive PyClass : Type :=
  | C_str
  | C_int
  | C_float
  | C_bool
  | C_datetime
  | C_UUID
  | C_list
  | C_Hashed
  | C_Enum (e : EnumDef)
  | C_Model (m : ModelDef)
  | C_Descriptor (k : DescriptorClass).

(** [isinstance(v, c)]; [bool] is a subclass of [int]. *)
Definition isinstance (v : PyVal) (c : PyClass) : bool :=
  match c, v with
  | C_str, VStr _ => true
  | C_int, VInt _ => true
  | C_int, VBool _ => true
  | C_float, VFloat _ => true
  | C_bool, VBool _ => true
  | C_datetime, VDatetime _ => true
  | C_UUID, VUuid _ => true
  | C_list, VList _ => true
  | C_Hashed, VHashed _ => true
  | C_Enum e, VEnum cls _ _ => String.eqb cls (enum_name e)
  | C_Model m, VObj cls _ => String.eqb cls (model_name m)
  | _, _ => false
  end.

(** [issubclass(c, ModelTypeBase)] *)
Definition issubclass_ModelTypeBase (c : PyClass) : bool :=
  match c with
  | C_Descriptor _ => true
  | _ => false
  end.

(** ** Enumerations *)

Module Enum.

(** The first line of a class body whose value equals [v]: what
    [E(v)] finds, and how the class body resolves aliases. *)
Fixpoint find_value (cls : string) (body : list (string * PyVal)) (v : PyVal)
  : option PyVal :=
  match body with
  | [] => None
  | (n, w) :: body' =>
      if py_eq w v then Some (VEnum cls n w) else find_value cls body' v
  end.

(** [E(v)]: a value whose type is [E] is returned as it is; any other
    value is looked up among the values of the lines ([_missing_] is
    not overridden). *)
Definition call (e : EnumDef) (v : PyVal) : result PyVal :=
  if isinstance v (C_Enum e) then Ok v
  else
    match find_value (enum_name e) (enum_body e) v with
    | Some m => Ok m
    | None => Raise ValueError
    end.



End Enum.

(** ** The environment of the module *)

Record Env : Type := {
  (** the [uuid.uuid4()] in the signature of [UniqueIdType.__init__],
      evaluated once, when the class statement runs *)
  uuid4_at_def : N;
  (** [model_base.get_loaded_model(name)] *)
  get_loaded_model : string -> result ModelDef;
  (** [M.load] called with the single keyword argument [key = value] *)
  load : ModelDef -> string -> PyVal -> result PyVal;
  (** [hash_function.Hashed(value)] *)
  Hashed : PyVal -> result PyVal;
  (** [str(v)] for a value that is neither a [str] nor a [UUID] *)
  str_other : PyVal -> string;
  (** [getattr(v, name)] for a value that is neither a model instance nor
      an enumeration member *)
  getattr_other : PyVal -> string -> result PyVal
}.

Fixpoint assoc (k : string) (l : list (string * PyVal)) : option PyVal :=
  match l with
  | [] => None
  | (j, v) :: l' => if String.eqb k j then Some v else assoc k l'
  end.

Definition py_getattr (env : Env) (v : PyVal) (name : string) : result PyVal :=
  match v with
  | VObj _ attrs =>
      match assoc name attrs with
      | Some x => Ok x
      | None => Raise AttributeError
      end
  | VEnum _ n w =>
      if String.eqb name "value" then Ok w
      else if String.eqb name "name" then Ok (VStr n)
      else Raise AttributeError
  | _ => getattr_other env v name
  end.

Definition py_str (env : Env) (v : PyVal) : string :=
  match v with
  | VStr s => s
  | VUuid n => Uuid.to_str n
  | _ => str_other env v
  end.

(** [for v in value] *)
Definition py_iter (v : PyVal) : result (list PyVal) :=
  match v with
  | VList l => Ok l
  | VStr s => Ok (map (fun c => VStr (String c EmptyString)) (Str.chars s))
  | _ => Raise TypeError
  end.

(** ** Descriptor objects *)

(** An instance of a descriptor class: its class and its instance
    attributes under their mangled names ([self.__primary] inside
    [ModelTypeBase] is [_ModelTypeBase__primary], and so on).  [None] is
    an attribute that has not been assigned. *)
Inductive Obj : Type := mkObj {
  klass : DescriptorClass;
  ModelTypeBase__primary : option bool;
  ModelTypeBase__non_null : option bool;
  ModelTypeBase__unique : option bool;
  ModelTypeBase__default : option PyVal;
  ListType__data_instance : option Obj;
  ListType__data_type : option PyClass;
  ForeignType__model : option ModelDef;
  ForeignType__model_primary_key : option string;
  EnumType__enum : option EnumDef
}.

(** [object.__new__(cls)] *)
Definition new_obj (k : DescriptorClass) : Obj :=
  mkObj k None None None None None None None None None.

Definition set_primary (b : bool) (o : Obj) : Obj :=
  let (k, _, n, u, d, di, dt, m, pk, e) := o in
  mkObj k (Some b) n u d di dt m pk e.
Definition set_non_null (b : bool) (o : Obj) : Obj :=
  let (k, p, _, u, d, di, dt, m, pk, e) := o in
  mkObj k p (Some b) u d di dt m pk e.
Definition set_unique (b : bool) (o : Obj) : Obj :=
  let (k, p, n, _, d, di, dt, m, pk, e) := o in
  mkObj k p n (Some b) d di dt m pk e.
Definition set_default (v : PyVal) (o : Obj) : Obj :=
  let (k, p, n, u, _, di, dt, m, pk, e) := o in
  mkObj k p n u (Some v) di dt m pk e.
Definition set_data_instance (x : Obj) (o : Obj) : Obj :=
  let (k, p, n, u, d, _, dt, m, pk, e) := o in
  mkObj k p n u d (Some x) dt m pk e.
Definition set_data_type (c : PyClass) (o : Obj) : Obj :=
  let (k, p, n, u, d, di, _, m, pk, e) := o in
  mkObj k p n u d di (Some c) m pk e.
Definition set_model (x : ModelDef) (o : Obj) : Obj :=
  let (k, p, n, u, d, di, dt, _, pk, e) := o in
  mkObj k p n u d di dt (Some x) pk e.
Definition set_model_primary_key (s : string) (o : Obj) : Obj :=
  let (k, p, n, u, d, di, dt, m, _, e) := o in
  mkObj k p n u d di dt m (Some s) e.
Definition set_enum (x : EnumDef) (o : Obj) : Obj :=
  let (k, p, n, u, d, di, dt, m, pk, _) := o in
  mkObj k p n u d di dt m pk (Some x).

(** Reading an instance attribute. *)
Definition attr {A : Type} (a : option A) : result A :=
  match a with
  | Some x => Ok x
  | None => Raise AttributeError
  end.

(** *** Properties *)

Definition primary (self : Obj) : result bool := attr (ModelTypeBase__primary self).
Definition non_null (self : Obj) : result bool := attr (ModelTypeBase__non_null self).
Definition unique (self : Obj) : result bool := attr (ModelTypeBase__unique self).
Definition default (self : Obj) : result PyVal := attr (ModelTypeBase__default self).

(** The property [type], as each class overrides it. *)
Definition type_ (self : Obj) : result PyClass :=
  match klass self with
  | StringType => Ok C_str
  | IntType => Ok C_int
  | FloatType => Ok C_float
  | UniqueIdType => Ok C_UUID
  | ListType => Ok C_list
  | ForeignType => m <- attr (ForeignType__model self) ;; Ok (C_Model m)
  | EnumType => e <- attr (EnumType__enum self) ;; Ok (C_Enum e)
  | DatetimeType => Ok C_datetime
  | BoolType => Ok C_bool
  | HashType => Ok C_Hashed
  end.

(** *** Constructors *)

(** The four parameters every [__init__] shares.  [arg_default = None]
    is an omitted argument, which takes the default of the signature. *)
Record Flags : Type := {
  arg_primary : bool;
  arg_non_null : bool;
  arg_unique : bool;
  arg_default : option PyVal
}.

Definition no_flags : Flags := Build_Flags false false false None.

(** [ModelTypeBase.__init__(self, primary, non_null, unique, default)] *)
Definition ModelTypeBase_init (self : Obj) (primary non_null unique : bool)
    (default : PyVal) : result Obj :=
  let self := set_primary primary self in
  let self := set_non_null non_null self in
  let self := set_unique unique self in
  if non_null && is_None default then Raise TypeError
  else
    let self :=
      if primary then set_non_null true (set_unique true self) else self in
    _ <- (if negb (is_None default)
          then (t <- type_ self ;;
                if negb (isinstance default t) then Raise TypeError else Ok tt)
          else Ok tt) ;;
    Ok (set_default default self).

(** The value bound to a [default=None] parameter. *)
Definition default_or_None (fl : Flags) : PyVal :=
  match arg_default fl with
  | Some v => v
  | None => VNone
  end.

(** The classes that inherit [__init__] unchanged. *)
Definition inherited_init (self : Obj) (fl : Flags) : result Obj :=
  ModelTypeBase_init self (arg_primary fl) (arg_non_null fl) (arg_unique fl)
    (default_or_None fl).

(** [UniqueIdType.__init__]: the omitted default is the identifier
    generated when the class was defined. *)
Definition UniqueIdType_init (env : Env) (self : Obj) (fl : Flags) : result Obj :=
  let default :=
    match arg_default fl with
    | Some v => v
    | None => VUuid (uuid4_at_def env)
    end in
  ModelTypeBase_init self (arg_primary fl) (arg_non_null fl) (arg_unique fl) default.

(** The first argument of [ForeignType]: a model name or a model class. *)
Inductive ModelArg : Type :=
  | ByName (name : string)
  | ByClass (m : ModelDef).

(** [ForeignType.__init__(self, model, model_primary_key, ...)] *)
Definition ForeignType_init (env : Env) (self : Obj) (model : ModelArg)
    (model_primary_key : option string) (fl : Flags) : result Obj :=
  self <- inherited_init self fl ;;
  model <- match model with
           | ByName name => get_loaded_model env name
           | ByClass m => Ok m
           end ;;
  let self := set_model model self in
  m <- attr (ForeignType__model self) ;;
  let model_primary_key :=
    match model_primary_key with
    | Some k => k
    | None => get_primary_key_name m
    end in
  Ok (set_model_primary_key model_primary_key self).

(** [EnumType.__init__(self, enum_type, ...)] *)
Definition EnumType_init (self : Obj) (enum_type : EnumDef) (fl : Flags)
  : result Obj :=
  self <- inherited_init self fl ;;
  Ok (set_enum enum_type self).

(** The arguments of a constructor call, bound to the parameters of the
    [__init__] they are meant for.  In [ArgsList dt rest fl], [rest] is
    what [*args, **kwargs] hold: the arguments forwarded to [dt] when
    [dt] is a descriptor class. *)
Inductive Args : Type :=
  | ArgsFlags (fl : Flags)
  | ArgsList (dt : PyClass) (rest : Args) (fl : Flags)
  | ArgsForeign (model : ModelArg) (model_primary_key : option string) (fl : Flags)
  | ArgsEnum (enum_type : EnumDef) (fl : Flags).

(** [k(...)]: allocate, then run [k.__init__].  Arguments that do not
    fit the signature of [k.__init__] are a [TypeError]. *)
Fixpoint construct (env : Env) (k : DescriptorClass) (a : Args) {struct a}
  : result Obj :=
  let self := new_obj k in
  match k, a with
  | StringType, ArgsFlags fl
  | IntType, ArgsFlags fl
  | FloatType, ArgsFlags fl
  | DatetimeType, ArgsFlags fl
  | BoolType, ArgsFlags fl
  | HashType, ArgsFlags fl => inherited_init self fl
  | UniqueIdType, ArgsFlags fl => UniqueIdType_init env self fl
  | ForeignType, ArgsForeign model pk fl => ForeignType_init env self model pk fl
  | EnumType, ArgsEnum e fl => EnumType_init self e fl
  | ListType, ArgsList dt rest fl =>
      self <- inherited_init self fl ;;
      self <- match dt with
              | C_Model m =>
                  x <- ForeignType_init env (new_obj ForeignType) (ByClass m)
                         None no_flags ;;
                  Ok (set_data_instance x self)
              | C_Enum e =>
                  x <- EnumType_init (new_obj EnumType) e no_flags ;;
                  Ok (set_data_instance x self)
              | C_Descriptor k' =>
                  x <- construct env k' rest ;;
                  Ok (set_data_instance x self)
              | _ => Ok self
              end ;;
      Ok (set_data_type dt self)
  | _, _ => Raise TypeError
  end.

(** *** Conversions *)

Section Conversions.

Variable env : Env.

(** [self.create_instance(value)] *)
Fixpoint create_instance (self : Obj) (value : PyVal) {struct self}
  : result PyVal :=
  match self with
  | mkObj k _ _ _ _ data_instance data_type model model_primary_key enum =>
      match k with
      | UniqueIdType => Uuid.UUID value
      | ListType =>
          dt <- attr data_type ;;
          if issubclass_ModelTypeBase dt
          then
            vs <- py_iter value ;;
            l <- mapM (fun v => match data_instance with
                                | Some x => create_instance x v
                                | None => Raise AttributeError
                                end) vs ;;
            Ok (VList l)
          else Ok value
      | ForeignType =>
          m <- attr model ;;
          key <- attr model_primary_key ;;
          load env m key value
      | EnumType => e <- attr enum ;; Enum.call e value
      | HashType => Hashed env value
      | _ => Ok value
      end
  end.

(** [self.to_model_data(value)] *)
Fixpoint to_model_data (self : Obj) (value : PyVal) {struct self}
  : result PyVal :=
  match self with
  | mkObj k _ _ _ _ data_instance data_type model model_primary_key enum =>
      match k with
      | UniqueIdType => Ok (VStr (py_str env value))
      | ListType =>
          dt <- attr data_type ;;
          if issubclass_ModelTypeBase dt
          then
            vs <- py_iter value ;;
            l <- mapM (fun v => match data_instance with
                                | Some x => to_model_data x v
                                | None => Raise AttributeError
                                end) vs ;;
            Ok (VList l)
          else Ok value
      | ForeignType =>
          key <- attr model_primary_key ;;
          py_getattr env value key
      | EnumType => py_getattr env value "value"
      | HashType => Ok (VStr (py_str env value))
      | _ => Ok value
      end
  end.

End Conversions.

(** ** Vocabulary of the properties *)

(** The four shared parameters of a constructor call. *)
Definition flags_of (a : Args) : Flags :=
  match a with
  | ArgsFlags fl => fl
  | ArgsList _ _ fl => fl
  | ArgsForeign _ _ fl => fl
  | ArgsEnum _ fl => fl
  end.

(** No default reaches [ModelTypeBase.__init__]: [None] is passed, or
    the argument is omitted and the signature supplies [None] (every
    class but [UniqueIdType]). *)
Definition default_absent (k : DescriptorClass) (fl : Flags) : bool :=
  match arg_default fl with
  | Some v => is_None v
  | None =>
      match k with
      | UniqueIdType => false
      | _ => true
      end
  end.

(** The value bound to the [default] parameter of
    [ModelTypeBase.__init__] by a call of class [k]. *)
Definition base_default (env : Env) (k : DescriptorClass) (fl : Flags) : PyVal :=
  match arg_default fl with
  | Some v => v
  | None =>
      match k with
      | UniqueIdType => VUuid (uuid4_at_def env)
      | _ => VNone
      end
  end.

Definition is_ok {A : Type} (r : result A) : bool :=
  match r with
  | Ok _ => true
  | Raise _ => false
  end.

(** The arguments of a call other than the four shared ones are
    accepted: they fit the signature, a model name is registered, and a
    list's element descriptor can itself be constructed. *)
Definition own_args_ok (env : Env) (k : DescriptorClass) (a : Args) : bool :=
  match k, a with
  | StringType, ArgsFlags _
  | IntType, ArgsFlags _
  | FloatType, ArgsFlags _
  | UniqueIdType, ArgsFlags _
  | DatetimeType, ArgsFlags _
  | BoolType, ArgsFlags _
  | HashType, ArgsFlags _ => true
  | ForeignType, ArgsForeign (ByName name) _ _ => is_ok (get_loaded_model env name)
  | ForeignType, ArgsForeign (ByClass _) _ _ => true
  | EnumType, ArgsEnum _ _ => true
  | ListType, ArgsList (C_Descriptor k') rest _ => is_ok (construct env k' rest)
  | ListType, ArgsList _ _ _ => true
  | _, _ => false
  end.

(** The value of the property [type] for the classes where it does not
    read an instance attribute. *)
Definition static_type (k : DescriptorClass) : option PyClass :=
  match k with
  | StringType => Some C_str
  | IntType => Some C_int
  | FloatType => Some C_float
  | UniqueIdType => Some C_UUID
  | ListType => Some C_list
  | DatetimeType => Some C_datetime
  | BoolType => Some C_bool
  | HashType => Some C_Hashed
  | ForeignType | EnumType => None
  end.

(** The descriptors of section 4.2 of the specification. *)
Definition is_scalar (k : DescriptorClass) : bool :=
  match k with
  | StringType | IntType | FloatType | BoolType | DatetimeType => true
  | _ => false
  end.

(** *** The canonical text of an identifier *)

Definition is_lower_hex (c : ascii) : bool :=
  let n := N_of_ascii c in
  (((48 <=? n) && (n <=? 57)) || ((97 <=? n) && (n <=? 102)))%N.

(** Drop [k] lowercase hexadecimal digits. *)
Fixpoint take_hex (k : nat) (s : list ascii) : option (list ascii) :=
  match k, s with
  | O, _ => Some s
  | S k', c :: s' => if is_lower_hex c then take_hex k' s' else None
  | S _, [] => None
  end.

Definition take_dash (s : list ascii) : option (list ascii) :=
  match s with
  | c :: s' => if Ascii.eqb c "-" then Some s' else None
  | [] => None
  end.

Definition obind {A B : Type} (o : option A) (f : A -> option B) : option B :=
  match o with
  | Some a => f a
  | None => None
  end.

(** Groups of 8, 4, 4, 4 and 12 lowercase hexadecimal digits, joined by
    hyphens. *)
Definition is_canonical (s : string) : bool :=
  match
    obind (take_hex 8 (Str.chars s)) (fun s =>
    obind (take_dash s) (fun s =>
    obind (take_hex 4 s) (fun s =>
    obind (take_dash s) (fun s =>
    obind (take_hex 4 s) (fun s =>
    obind (take_dash s) (fun s =>
    obind (take_hex 4 s) (fun s =>
    obind (take_dash s) (fun s =>
    take_hex 12 s))))))))
  with
  | Some [] => true
  | _ => false
  end.

(** The characters of a canonical text. *)
Definition uuid_char (c : ascii) : bool := is_lower_hex c || Ascii.eqb "-" c.

(** The value of a hexadecimal digit, and of a string of them read from
    the left starting from [acc]. *)
Definition hv (c : ascii) : N :=
  match Str.hex_value c with
  | Some v => v
  | None => 0
  end.

Definition hex_fold (acc : N) (ds : list ascii) : N :=
  fold_left (fun a c => (16 * a + hv c)%N) ds acc.

(** *** Valid raw values *)




(** *** Further vocabulary *)

(** A class that is neither a model, nor an enumeration, nor a
    descriptor: the plain element types of a list. *)
Definition is_plain_class (c : PyClass) : bool :=
  match c with
  | C_Enum _ | C_Model _ | C_Descriptor _ => false
  | _ => true
  end.

(** The values [py_iter] accepts. *)
Definition is_iterable (v : PyVal) : bool :=
  match v with
  | VList _ | VStr _ => true
  | _ => false
  end.


(** ** Sample classes and a stub environment *)

Definition Color : EnumDef :=
  {| enum_name := "Color";
     enum_body := [("RED", VInt 1); ("GREEN", VInt 2); ("BLUE", VInt 3)] |}.

Definition RED : PyVal := VEnum "Color" "RED" (VInt 1).
Definition GREEN : PyVal := VEnum "Color" "GREEN" (VInt 2).
Definition BLUE : PyVal := VEnum "Color" "BLUE" (VInt 3).

Definition Order : ModelDef :=
  {| model_name := "Order"; get_primary_key_name := "id" |}.

(** A registry that knows [Order], a loader that returns an instance
    carrying the requested key, a [Hashed] that stores the text it is
    given. *)
Definition stub_env : Env :=
  {| uuid4_at_def := 24249434048109030647017182301789831168;
     get_loaded_model :=
       fun name => if String.eqb name "Order" then Ok Order else Raise LookupError;
     load := fun m key v => Ok (VObj (model_name m) [(key, v)]);
     Hashed :=
       fun v => match v with
                | VStr s => Ok (VHashed s)
                | _ => Raise TypeError
                end;
     str_other :=
       fun v => match v with
                | VHashed h => h
                | _ => ""
                end;
     getattr_other := fun _ _ => Raise AttributeError |}.

Definition sample_uuid_text : string := "123e4567-e89b-12d3-a456-426614174000".

(** * Properties *)

(** ** The [uuid] fragment on the specification's sample *)

Example uuid_sample :
  Uuid.UUID (VStr "123e4567-e89b-12d3-a456-426614174000")
  = Ok (VUuid 24249434048109030647017182301789831168%N).
Proof. vm_compute. reflexivity. Qed.

Example uuid_sample_str :
  Uuid.to_str 24249434048109030647017182301789831168
  = "123e4567-e89b-12d3-a456-426614174000".
Proof. vm_compute. reflexivity. Qed.

Example uuid_upper :
  Uuid.UUID (VStr "{123E4567-E89B-12D3-A456-426614174000}")
  = Ok (VUuid 24249434048109030647017182301789831168%N).
Proof. vm_compute. reflexivity. Qed.

(** ** The base constructor *)

Ltac inv H := inversion H; subst; clear H.

Lemma bind_Ok {A B : Type} (m : result A) (k : A -> result B) (b : B) :
  bind m k = Ok b -> exists a, m = Ok a /\ k a = Ok b.
Proof. destruct m as [a|e]; simpl; intros H; [eauto | discriminate]. Qed.

(** What a successful run of [ModelTypeBase.__init__] leaves in the
    object: the flags (with [primary] forcing the other two), the
    default, and every other attribute as it was. *)
Lemma ModelTypeBase_init_Ok self p n u d o :
  ModelTypeBase_init self p n u d = Ok o ->
  o = mkObj (klass self) (Some p) (Some (p || n)) (Some (p || u)) (Some d)
        (ListType__data_instance self) (ListType__data_type self)
        (ForeignType__model self) (ForeignType__model_primary_key self)
        (EnumType__enum self)
  /\ (n && is_None d = false).
Proof.
  unfold ModelTypeBase_init. destruct self as [k ? ? ? ? di dt m pk e].
  destruct (n && is_None d) eqn:Hn; [discriminate|].
  intros H. apply bind_Ok in H. destruct H as [[] [_ H]].
  destruct p; simpl in H; inv H; simpl; auto.
Qed.

(** When no default is passed the type check is skipped and the only
    failure is the non-null one. *)
Lemma ModelTypeBase_init_None self p n u :
  ModelTypeBase_init self p n u VNone =
  if n then Raise TypeError
  else Ok (mkObj (klass self) (Some p) (Some p) (Some (p || u)) (Some VNone)
             (ListType__data_instance self) (ListType__data_type self)
             (ForeignType__model self) (ForeignType__model_primary_key self)
             (EnumType__enum self)).
Proof.
  unfold ModelTypeBase_init. destruct self as [k ? ? ? ? di dt m pk e].
  destruct n, p; simpl; reflexivity.
Qed.

(** With a default, the outcome is decided by [self.type] at that
    moment and by [isinstance]. *)
Lemma ModelTypeBase_init_default self p n u d :
  is_None d = false ->
  ModelTypeBase_init self p n u d =
  match type_ self with
  | Raise e => Raise e
  | Ok t =>
      if isinstance d t
      then Ok (mkObj (klass self) (Some p) (Some (p || n)) (Some (p || u)) (Some d)
                 (ListType__data_instance self) (ListType__data_type self)
                 (ForeignType__model self) (ForeignType__model_primary_key self)
                 (EnumType__enum self))
      else Raise TypeError
  end.
Proof.
  intros Hd. unfold ModelTypeBase_init. rewrite Hd, andb_false_r.
  destruct self as [k ? ? ? ? di dt m pk e].
  destruct p; unfold type_; cbn -[isinstance];
    destruct k; cbn -[isinstance];
    try (destruct (isinstance d _); reflexivity);
    try (destruct m as [m|]; cbn -[isinstance];
         [destruct (isinstance d _)|]; reflexivity);
    try (destruct e as [e|]; cbn -[isinstance];
         [destruct (isinstance d _)|]; reflexivity).
Qed.

Lemma default_absent_base_default env k fl :
  default_absent k fl = is_None (base_default env k fl).
Proof.
  unfold default_absent, base_default.
  destruct (arg_default fl); [reflexivity|]. destruct k; reflexivity.
Qed.

Lemma is_None_true v : is_None v = true -> v = VNone.
Proof. destruct v; simpl; intros H; try discriminate; reflexivity. Qed.

(** ** Constructors *)

(** Every successful construction leaves the four shared attributes set
    from the arguments, [primary] forcing [non_null] and [unique]. *)
Lemma construct_flags env k a d :
  construct env k a = Ok d ->
  klass d = k /\
  primary d = Ok (arg_primary (flags_of a)) /\
  non_null d = Ok (arg_primary (flags_of a) || arg_non_null (flags_of a)) /\
  unique d = Ok (arg_primary (flags_of a) || arg_unique (flags_of a)) /\
  default d = Ok (base_default env k (flags_of a)).
Proof.
  destruct k, a; simpl; try discriminate;
    unfold inherited_init, UniqueIdType_init, ForeignType_init, EnumType_init,
      inherited_init, base_default, default_or_None; intros H.
  all: try (apply ModelTypeBase_init_Ok in H; destruct H as [-> _]; simpl;
            repeat split; reflexivity).
  - (* ListType *)
    apply bind_Ok in H. destruct H as [o [H1 H]].
    apply bind_Ok in H. destruct H as [o' [H2 H]]. inv H.
    apply ModelTypeBase_init_Ok in H1. destruct H1 as [-> _]. simpl in H2.
    assert (Hs : forall x, o' = set_data_instance x
        (mkObj ListType (Some (arg_primary fl))
           (Some (arg_primary fl || arg_non_null fl))
           (Some (arg_primary fl || arg_unique fl))
           (Some match arg_default fl with Some v => v | None => VNone end)
           None None None None None) ->
        klass (set_data_type dt o') = ListType /\
        primary (set_data_type dt o') = Ok (arg_primary fl) /\
        non_null (set_data_type dt o') = Ok (arg_primary fl || arg_non_null fl) /\
        unique (set_data_type dt o') = Ok (arg_primary fl || arg_unique fl) /\
        default (set_data_type dt o') =
          Ok match arg_default fl with Some v => v | None => VNone end).
    { intros x ->. simpl. repeat split; reflexivity. }
    destruct dt; try (inv H2; simpl; repeat split; reflexivity);
      apply bind_Ok in H2; destruct H2 as [x [_ H2]]; inv H2; eapply Hs; reflexivity.
  - (* ForeignType *)
    apply bind_Ok in H. destruct H as [o [H1 H]].
    apply bind_Ok in H. destruct H as [m [_ H]].
    apply ModelTypeBase_init_Ok in H1. destruct H1 as [-> _]. simpl in H.
    inv H. simpl. repeat split; reflexivity.
  - (* EnumType *)
    apply bind_Ok in H. destruct H as [o [H1 H]].
    apply ModelTypeBase_init_Ok in H1. destruct H1 as [-> _]. inv H.
    simpl. repeat split; reflexivity.
Qed.

(** [non_null] without a default stops every constructor in the base
    class, before anything else happens. *)
Lemma construct_non_null_None env k a :
  arg_non_null (flags_of a) = true ->
  is_None (base_default env k (flags_of a)) = true ->
  construct env k a = Raise TypeError.
Proof.
  intros Hn Hd. apply is_None_true in Hd.
  destruct k, a; simpl in *; try reflexivity;
    unfold inherited_init, UniqueIdType_init, ForeignType_init, EnumType_init,
      inherited_init, base_default, default_or_None in *;
    rewrite Hd, ModelTypeBase_init_None, Hn; reflexivity.
Qed.

(** For the classes whose [type] is fixed, a default of another type is
    refused with [TypeError]. *)
Lemma construct_default_mismatch env k a t v :
  static_type k = Some t ->
  arg_default (flags_of a) = Some v ->
  is_None v = false ->
  isinstance v t = false ->
  construct env k a = Raise TypeError.
Proof.
  intros Ht Hv Hn Hi.
  destruct k, a; simpl in *; try reflexivity; try discriminate; inv Ht;
    unfold inherited_init, UniqueIdType_init, default_or_None;
    rewrite Hv, (ModelTypeBase_init_default _ _ _ _ _ Hn);
    unfold type_; cbn -[isinstance]; rewrite Hi; reflexivity.
Qed.

(** ... and a default of the right type passes the base constructor. *)
Lemma construct_default_match env k a t v :
  static_type k = Some t ->
  arg_default (flags_of a) = Some v ->
  is_None v = false ->
  isinstance v t = true ->
  own_args_ok env k a = true ->
  is_ok (construct env k a) = true.
Proof.
  intros Ht Hv Hn Hi Ha.
  destruct k, a; simpl in Ha; try discriminate; simpl in Ht; inv Ht;
    simpl in Hv; simpl;
    unfold inherited_init, UniqueIdType_init, default_or_None;
    rewrite Hv, (ModelTypeBase_init_default _ _ _ _ _ Hn);
    unfold type_; cbn -[isinstance]; rewrite Hi; try reflexivity.
  (* ListType: the element descriptor is built next *)
  destruct dt; try reflexivity.
  cbn -[construct] in *.
  match goal with
  | H : is_ok ?c = true |- _ => destruct c; [reflexivity | discriminate]
  end.
Qed.

(** C2, on the code: [EnumType] and [ForeignType] store the attribute
    that their [type] property reads only after the base constructor has
    run, so any default at all, of the right type or not, makes the base
    constructor's type check raise [AttributeError]: a matching default
    does not construct, and a mismatching one is not reported as a
    [TypeError]. *)
Theorem C2_default_on_enum_or_foreign_raises env fl v :
  arg_default fl = Some v ->
  is_None v = false ->
  (forall e, construct env EnumType (ArgsEnum e fl) = Raise AttributeError) /\
  (forall model pk,
     construct env ForeignType (ArgsForeign model pk fl) = Raise AttributeError).
Proof.
  intros Hv Hn. split; intros; simpl;
    unfold EnumType_init, ForeignType_init, inherited_init, default_or_None;
    rewrite Hv, (ModelTypeBase_init_default _ _ _ _ _ Hn); reflexivity.
Qed.

Lemma C2_witness :
  isinstance RED (C_Enum Color) = true /\
  construct stub_env EnumType
    (ArgsEnum Color (Build_Flags false false false (Some RED)))
  = Raise AttributeError.
Proof.
  split; [reflexivity|].
  apply (C2_default_on_enum_or_foreign_raises stub_env
           (Build_Flags false false false (Some RED)) RED); reflexivity.
Defined.

(** C3: whatever the class and the other arguments, a descriptor
    constructed with [primary=True] answers [True] to both [unique] and
    [non_null]. *)
Theorem C3_primary_forces_unique_and_non_null env k a d :
  construct env k a = Ok d ->
  arg_primary (flags_of a) = true ->
  unique d = Ok true /\ non_null d = Ok true.
Proof.
  intros H Hp. apply construct_flags in H.
  destruct H as (_ & _ & Hn & Hu & _). rewrite Hp in *. auto.
Qed.

Lemma C3_witness :
  exists d,
    construct stub_env IntType (ArgsFlags (Build_Flags true false false None)) = Ok d /\
    unique d = Ok true /\ non_null d = Ok true.
Proof.
  eexists. split; [reflexivity|].
  apply (C3_primary_forces_unique_and_non_null stub_env IntType
           (ArgsFlags (Build_Flags true false false None))); reflexivity.
Defined.

(** C4, as the code has it: with [non_null=True], construction fails
    with [TypeError] whenever no default reaches the base constructor,
    that is when [None] is passed, or when the argument is omitted and
    the class is not [UniqueIdType]. *)
Theorem C4_non_null_without_default_fails env k a :
  arg_non_null (flags_of a) = true ->
  default_absent k (flags_of a) = true ->
  construct env k a = Raise TypeError.
Proof.
  intros Hn Hd. rewrite (default_absent_base_default env) in Hd.
  apply construct_non_null_None; assumption.
Qed.

Lemma C4_witness :
  construct stub_env ListType
    (ArgsList C_int (ArgsFlags no_flags) (Build_Flags false true false None))
  = Raise TypeError.
Proof.
  apply (C4_non_null_without_default_fails stub_env ListType
           (ArgsList C_int (ArgsFlags no_flags) (Build_Flags false true false None)));
    reflexivity.
Defined.

(** [UniqueIdType(non_null=True)], no default supplied: the signature
    supplies the generated identifier and construction succeeds. *)
Lemma C4_counterexample :
  exists d,
    construct stub_env UniqueIdType
      (ArgsFlags (Build_Flags false true false None)) = Ok d /\
    non_null d = Ok true /\
    default d = Ok (VUuid (uuid4_at_def stub_env)).
Proof. eexists. repeat split. Qed.

(** C9: two [UniqueIdType] descriptors constructed without a default
    argument carry the same default, the identifier generated once when
    the class was defined. *)
Theorem C9_generated_default_is_shared env fl1 fl2 d1 d2 :
  arg_default fl1 = None ->
  arg_default fl2 = None ->
  construct env UniqueIdType (ArgsFlags fl1) = Ok d1 ->
  construct env UniqueIdType (ArgsFlags fl2) = Ok d2 ->
  default d1 = default d2 /\ default d1 = Ok (VUuid (uuid4_at_def env)).
Proof.
  intros H1 H2 C1 C2. apply construct_flags in C1, C2.
  destruct C1 as (_ & _ & _ & _ & D1). destruct C2 as (_ & _ & _ & _ & D2).
  unfold base_default in *. simpl in *. rewrite H1 in D1. rewrite H2 in D2.
  rewrite D1, D2. auto.
Qed.

Lemma C9_witness :
  exists d1 d2,
    construct stub_env UniqueIdType (ArgsFlags no_flags) = Ok d1 /\
    construct stub_env UniqueIdType
      (ArgsFlags (Build_Flags true false true None)) = Ok d2 /\
    default d1 = default d2 /\ default d1 = Ok (VUuid (uuid4_at_def stub_env)).
Proof.
  do 2 eexists. split; [reflexivity|]. split; [reflexivity|].
  apply (C9_generated_default_is_shared stub_env no_flags
           (Build_Flags true false true None)); reflexivity.
Defined.

(** C10, as the code has it: with [primary=True], [non_null] false and
    no default reaching the base constructor, the non-null check is
    passed before [primary] forces [non_null]; when the class's own
    arguments are accepted the construction succeeds, and the descriptor
    answers [True] to [non_null] while its default is [None]. *)
Theorem C10_primary_bypasses_non_null_check env k a :
  arg_primary (flags_of a) = true ->
  arg_non_null (flags_of a) = false ->
  default_absent k (flags_of a) = true ->
  own_args_ok env k a = true ->
  exists d,
    construct env k a = Ok d /\ non_null d = Ok true /\ default d = Ok VNone.
Proof.
  intros Hp Hn Hd Ha.
  assert (Hok : is_ok (construct env k a) = true).
  { rewrite (default_absent_base_default env) in Hd. apply is_None_true in Hd.
    destruct k, a; simpl in Ha; try discriminate; simpl in *;
      unfold inherited_init, UniqueIdType_init, ForeignType_init, EnumType_init,
        inherited_init, base_default, default_or_None in *;
      rewrite Hd, ModelTypeBase_init_None, Hn; try reflexivity.
    - destruct dt; try reflexivity.
      cbn -[construct] in *.
      match goal with
      | H : is_ok ?c = true |- _ => destruct c; [reflexivity | discriminate]
      end.
    - destruct model; simpl in *; [|reflexivity].
      destruct (get_loaded_model env name); [reflexivity | discriminate]. }
  destruct (construct env k a) as [d|] eqn:C; [|discriminate].
  exists d. split; [reflexivity|].
  apply construct_flags in C. destruct C as (_ & _ & N & _ & D).
  rewrite Hp in N. rewrite (default_absent_base_default env) in Hd.
  apply is_None_true in Hd. rewrite Hd in D. auto.
Qed.

Lemma C10_witness :
  exists d,
    construct stub_env ForeignType
      (ArgsForeign (ByName "Order") None (Build_Flags true false false None)) = Ok d /\
    non_null d = Ok true /\ default d = Ok VNone.
Proof.
  apply (C10_primary_bypasses_non_null_check stub_env ForeignType
           (ArgsForeign (ByName "Order") None (Build_Flags true false false None)));
    reflexivity.
Defined.

(** [UniqueIdType(primary=True)], no default supplied: the descriptor's
    default is the generated identifier, not [None]. *)
Lemma C10_counterexample :
  exists d,
    construct stub_env UniqueIdType
      (ArgsFlags (Build_Flags true false false None)) = Ok d /\
    non_null d = Ok true /\
    default d = Ok (VUuid (uuid4_at_def stub_env)) /\
    default d <> Ok VNone.
Proof. eexists. repeat split. discriminate. Qed.

(** ** Conversions of the scalar descriptors *)

(** C8: [StringType], [IntType], [FloatType], [BoolType] and
    [DatetimeType] construct exactly as the base constructor does, and
    both of their conversions return the argument, for every value. *)
Theorem C8_scalar_conversions_are_identity env k :
  is_scalar k = true ->
  (forall fl,
     construct env k (ArgsFlags fl) =
     ModelTypeBase_init (new_obj k) (arg_primary fl) (arg_non_null fl)
       (arg_unique fl) (default_or_None fl)) /\
  (forall self x,
     klass self = k ->
     create_instance env self x = Ok x /\ to_model_data env self x = Ok x).
Proof.
  intros Hk. split.
  - intros fl. destruct k; try discriminate; reflexivity.
  - intros self x <-. destruct self as [k' ? ? ? ? ? ? ? ? ?]. simpl in *.
    destruct k'; try discriminate; split; reflexivity.
Qed.

Lemma C8_witness :
  exists d,
    construct stub_env DatetimeType (ArgsFlags no_flags) = Ok d /\
    create_instance stub_env d (VList [VInt 1; VNone]) = Ok (VList [VInt 1; VNone]) /\
    to_model_data stub_env d (VStr "x") = Ok (VStr "x").
Proof.
  eexists. split; [reflexivity|].
  destruct (C8_scalar_conversions_are_identity stub_env DatetimeType eq_refl)
    as [_ H].
  split; apply H; reflexivity.
Defined.

(** ** Foreign references *)

(** C7: a constructed [ForeignType] holds the model [m] (given, or
    looked up by name) and the key name [k] (given, or the model's
    primary key name); [create_instance v] is the loader's answer to
    [k = v], and [to_model_data] reads attribute [k] of an instance,
    raising [AttributeError] when the instance has none. *)
Theorem C7_foreign_conversions env model pk fl d :
  construct env ForeignType (ArgsForeign model pk fl) = Ok d ->
  exists m,
    match model with
    | ByName name => get_loaded_model env name = Ok m
    | ByClass m' => m' = m
    end /\
    let k := match pk with Some k => k | None => get_primary_key_name m end in
    (forall v, create_instance env d v = load env m k v) /\
    (forall cls attrs,
       to_model_data env d (VObj cls attrs) =
       match assoc k attrs with
       | Some x => Ok x
       | None => Raise AttributeError
       end).
Proof.
  simpl. unfold ForeignType_init. intros H.
  apply bind_Ok in H. destruct H as [o [H1 H]].
  apply bind_Ok in H. destruct H as [m [Hm H]].
  apply ModelTypeBase_init_Ok in H1. destruct H1 as [-> _]. simpl in H. inv H.
  exists m. split.
  - destruct model; [assumption | inv Hm; reflexivity].
  - simpl. split; reflexivity.
Qed.

Lemma C7_witness :
  exists d,
    construct stub_env ForeignType (ArgsForeign (ByClass Order) None no_flags) = Ok d /\
    create_instance stub_env d (VInt 7) = load stub_env Order "id" (VInt 7) /\
    to_model_data stub_env d (VObj "Order" [("id", VInt 7)]) = Ok (VInt 7) /\
    to_model_data stub_env d (VObj "Order" [("name", VStr "a")]) = Raise AttributeError.
Proof.
  eexists. split; [reflexivity|].
  destruct (C7_foreign_conversions stub_env (ByClass Order) None no_flags _ eq_refl)
    as [m [Hm [Hc Ht]]].
  subst m. split; [apply Hc|]. split; apply Ht.
Defined.

(** ** Lists *)

Lemma mapM_length {A B : Type} (f : A -> result B) l r :
  mapM f l = Ok r -> List.length r = List.length l.
Proof.
  revert r. induction l as [|a l IH]; simpl; intros r H.
  - inv H. reflexivity.
  - apply bind_Ok in H. destruct H as [b [_ H]].
    apply bind_Ok in H. destruct H as [bs [Hbs H]]. inv H.
    simpl. f_equal. apply IH. assumption.
Qed.

Lemma mapM_nth {A B : Type} (f : A -> result B) l r :
  mapM f l = Ok r ->
  forall i a, nth_error l i = Some a ->
  exists b, nth_error r i = Some b /\ f a = Ok b.
Proof.
  revert r. induction l as [|a0 l IH]; simpl; intros r H i a Hi.
  - destruct i; discriminate.
  - apply bind_Ok in H. destruct H as [b [Hb H]].
    apply bind_Ok in H. destruct H as [bs [Hbs H]]. inv H.
    destruct i as [|i]; simpl in *.
    + inv Hi. eauto.
    + eapply IH; eassumption.
Qed.

(** A list descriptor over a descriptor class converts element by
    element, in order, and fails as soon as an element does. *)
Lemma ListType_over_descriptor env k rest fl d :
  construct env ListType (ArgsList (C_Descriptor k) rest fl) = Ok d ->
  exists elem,
    construct env k rest = Ok elem /\
    ListType__data_instance d = Some elem /\
    forall l,
      create_instance env d (VList l) =
        (r <- mapM (create_instance env elem) l ;; Ok (VList r)) /\
      to_model_data env d (VList l) =
        (r <- mapM (to_model_data env elem) l ;; Ok (VList r)).
Proof.
  cbn -[construct]. fold (construct env k rest). intros H.
  apply bind_Ok in H. destruct H as [o [H1 H]].
  apply bind_Ok in H. destruct H as [o' [H2 H]]. inv H.
  apply bind_Ok in H2. destruct H2 as [elem [He H2]]. inv H2.
  apply ModelTypeBase_init_Ok in H1. destruct H1 as [-> _].
  exists elem. split; [exact He|]. split; [reflexivity|].
  intros l. split; reflexivity.
Qed.

(** A list descriptor over any other class (a model, an enumeration, a
    plain type) returns its argument in both directions: the guard of
    the conversions tests [issubclass(dt, ModelTypeBase)] only. *)
Lemma ListType_over_other_class env dt rest fl d :
  construct env ListType (ArgsList dt rest fl) = Ok d ->
  issubclass_ModelTypeBase dt = false ->
  forall v, create_instance env d v = Ok v /\ to_model_data env d v = Ok v.
Proof.
  cbn -[construct]. intros H Hdt v.
  apply bind_Ok in H. destruct H as [o [H1 H]].
  apply bind_Ok in H. destruct H as [o' [H2 H]]. inv H.
  apply ModelTypeBase_init_Ok in H1. destruct H1 as [-> _].
  destruct dt; try discriminate; simpl in H2;
    try (inv H2; split; reflexivity);
    apply bind_Ok in H2; destruct H2 as [x [_ H2]]; inv H2; split; reflexivity.
Qed.

(** C1, on the code: [ListType(Color)] builds the element descriptor
    [EnumType(Color)], which converts [1] to [Color.RED], but the list's
    own [create_instance] and [to_model_data] never call it and return
    the sequence as it came. *)
Theorem C1_list_of_enum_is_not_converted :
  exists d elem,
    construct stub_env ListType
      (ArgsList (C_Enum Color) (ArgsFlags no_flags) no_flags) = Ok d /\
    ListType__data_instance d = Some elem /\
    create_instance stub_env elem (VInt 1) = Ok RED /\
    create_instance stub_env d (VList [VInt 1]) = Ok (VList [VInt 1]) /\
    to_model_data stub_env elem RED = Ok (VInt 1) /\
    to_model_data stub_env d (VList [RED]) = Ok (VList [RED]).
Proof. do 2 eexists. repeat split. Qed.

(** ** Enumerations *)


Lemma find_value_value cls body v m :
  Enum.find_value cls body v = Some m ->
  exists n w, m = VEnum cls n w /\ In (n, w) body /\ py_eq w v = true.
Proof.
  induction body as [|[n w] body IH]; simpl; [discriminate|].
  destruct (py_eq w v) eqn:E; intros H.
  - inv H. eauto 6.
  - destruct (IH H) as (n' & w' & -> & Hin & He). eauto 7.
Qed.







(** ** Identifiers: parsing the canonical text and printing it back *)

Lemma forallb_impl {A : Type} (P Q : A -> bool) l :
  (forall a, P a = true -> Q a = true) ->
  forallb P l = true -> forallb Q l = true.
Proof.
  intros HPQ. induction l as [|a l IH]; simpl; [reflexivity|].
  intros H. apply andb_true_iff in H. destruct H as [Ha Hl].
  rewrite (HPQ _ Ha), (IH Hl). reflexivity.
Qed.

Lemma forallb_rev {A : Type} (P : A -> bool) l :
  forallb P l = true -> forallb P (rev l) = true.
Proof.
  rewrite !forallb_forall. intros H a Ha. apply H, in_rev, Ha.
Qed.

Lemma filter_all {A : Type} (P : A -> bool) l :
  forallb P l = true -> filter P l = l.
Proof.
  induction l as [|a l IH]; simpl; [reflexivity|].
  intros H. apply andb_true_iff in H. destruct H as [Ha Hl].
  rewrite Ha, (IH Hl). reflexivity.
Qed.

Lemma uuid_char_not c d :
  uuid_char c = true -> uuid_char d = false -> Ascii.eqb d c = false.
Proof.
  intros Hc Hd. destruct (Ascii.eqb_spec d c) as [->|]; congruence.
Qed.

Lemma lower_hex_not c d :
  is_lower_hex c = true -> is_lower_hex d = false ->
  Ascii.eqb d c = false /\ Ascii.eqb c d = false.
Proof.
  intros Hc Hd.
  destruct (Ascii.eqb_spec d c) as [->|]; [congruence|].
  destruct (Ascii.eqb_spec c d) as [->|]; [congruence|]. auto.
Qed.

Lemma lower_hex_value c :
  is_lower_hex c = true ->
  Str.hex_value c = Some (hv c) /\ (hv c < 16)%N /\ Uuid.hex_char (hv c) = c.
Proof.
  destruct c as [[] [] [] [] [] [] [] []]; intros H;
    try discriminate H; repeat split.
Qed.

(** *** The string methods on such texts *)

Lemma replace_from_absent h t new s :
  forallb (fun c => negb (Ascii.eqb h c)) s = true ->
  Str.replace_from (h :: t) new O s = s.
Proof.
  induction s as [|c s IH]; simpl; [reflexivity|].
  intros H. apply andb_true_iff in H. destruct H as [Hc Hs].
  apply negb_true_iff in Hc. rewrite Hc. simpl. rewrite (IH Hs). reflexivity.
Qed.

Lemma replace_char_filter d s :
  Str.replace_from [d] [] O s = filter (fun c => negb (Ascii.eqb d c)) s.
Proof.
  induction s as [|c s IH]; simpl; [reflexivity|].
  destruct (Ascii.eqb d c); simpl; rewrite IH; reflexivity.
Qed.

Lemma lstrip_none set s :
  forallb (fun c => negb (Str.mem c set)) s = true -> Str.lstrip set s = s.
Proof.
  destruct s as [|c s]; simpl; [reflexivity|].
  intros H. apply andb_true_iff in H. destruct H as [Hc _].
  apply negb_true_iff in Hc. rewrite Hc. reflexivity.
Qed.

Lemma rstrip_none set s :
  forallb (fun c => negb (Str.mem c set)) s = true -> Str.rstrip set s = s.
Proof.
  intros H. unfold Str.rstrip.
  rewrite lstrip_none by (apply forallb_rev, H). apply rev_involutive.
Qed.

(** *** Reading and writing hexadecimal digits *)

Lemma digits16_hex ds : forall acc und seen,
  forallb is_lower_hex ds = true ->
  ds <> [] \/ seen = true ->
  Str.digits16 acc und seen ds = Some (hex_fold acc ds).
Proof.
  induction ds as [|c ds IH]; simpl; intros acc und seen H Hne.
  - destruct Hne as [Hne | ->]; [contradiction | reflexivity].
  - apply andb_true_iff in H. destruct H as [Hc Hds].
    destruct (lower_hex_not c "_" Hc eq_refl) as [_ E]. rewrite E.
    destruct (lower_hex_value c Hc) as (Hv & _ & _). rewrite Hv.
    unfold hex_fold. simpl. apply IH; auto.
Qed.

Lemma hex_fold_bound ds : forall acc,
  forallb is_lower_hex ds = true ->
  (hex_fold acc ds < (acc + 1) * 16 ^ N.of_nat (List.length ds))%N.
Proof.
  induction ds as [|c ds IH]; intros acc H.
  - unfold hex_fold. simpl. lia.
  - simpl in H. apply andb_true_iff in H. destruct H as [Hc Hds].
    destruct (lower_hex_value c Hc) as (_ & Hlt & _).
    specialize (IH (16 * acc + hv c)%N Hds).
    change (hex_fold acc (c :: ds)) with (hex_fold (16 * acc + hv c) ds).
    replace (N.of_nat (List.length (c :: ds)))
      with (N.succ (N.of_nat (List.length ds))) by (simpl; lia).
    rewrite N.pow_succ_r'.
    eapply N.lt_le_trans; [exact IH|]. nia.
Qed.

Lemma hex_digits_fold ds :
  forallb is_lower_hex ds = true ->
  Uuid.hex_digits (List.length ds) (hex_fold 0 ds) = ds.
Proof.
  induction ds as [|c ds IH] using rev_ind; intros H; [reflexivity|].
  rewrite forallb_app in H. apply andb_true_iff in H. destruct H as [Hds Hc].
  simpl in Hc. rewrite andb_true_r in Hc.
  destruct (lower_hex_value c Hc) as (_ & Hlt & Hch).
  assert (E : hex_fold 0 (ds ++ [c]) = (16 * hex_fold 0 ds + hv c)%N).
  { unfold hex_fold. rewrite fold_left_app. reflexivity. }
  rewrite E, length_app, Nat.add_1_r.
  change (Uuid.hex_digits (S (List.length ds)) (16 * hex_fold 0 ds + hv c))
    with (Uuid.hex_digits (List.length ds) ((16 * hex_fold 0 ds + hv c) / 16)
            ++ [Uuid.hex_char ((16 * hex_fold 0 ds + hv c) mod 16)])%list.
  rewrite <- (N.div_unique (16 * hex_fold 0 ds + hv c) 16 (hex_fold 0 ds) (hv c))
    by (assumption || reflexivity).
  rewrite <- (N.mod_unique (16 * hex_fold 0 ds + hv c) 16 (hex_fold 0 ds) (hv c))
    by (assumption || reflexivity).
  rewrite (IH Hds), Hch. reflexivity.
Qed.

(** [int(ds, 16)] on lowercase hexadecimal digits. *)
Lemma int16_hex ds :
  forallb is_lower_hex ds = true ->
  (2 <= List.length ds)%nat ->
  Str.int16 ds = Some (Z.of_N (hex_fold 0 ds)).
Proof.
  intros H Hlen. unfold Str.int16.
  assert (Hws : forallb (fun c => negb (Str.mem c Str.whitespace)) ds = true).
  { revert H. apply forallb_impl. intros c Hc.
    destruct c as [[] [] [] [] [] [] [] []]; try discriminate Hc; reflexivity. }
  rewrite (lstrip_none _ _ Hws), (rstrip_none _ _ Hws).
  destruct ds as [|a [|b ds]]; simpl in Hlen; try lia.
  simpl in H. apply andb_true_iff in H. destruct H as [Ha H'].
  apply andb_true_iff in H'. destruct H' as [Hb Hds].
  destruct (lower_hex_not a "-" Ha eq_refl) as [_ E1].
  destruct (lower_hex_not a "+" Ha eq_refl) as [_ E2].
  destruct (lower_hex_not b "x" Hb eq_refl) as [_ E3].
  destruct (lower_hex_not b "X" Hb eq_refl) as [_ E4].
  rewrite E1, E2, E3, E4, andb_false_r.
  rewrite digits16_hex; [reflexivity | | left; discriminate].
  simpl. rewrite Ha, Hb, Hds. reflexivity.
Qed.

(** *** The shape of a canonical text *)

Lemma take_hex_split k : forall s r,
  take_hex k s = Some r ->
  exists g, s = (g ++ r)%list /\ List.length g = k /\
            forallb is_lower_hex g = true.
Proof.
  induction k as [|k IH]; simpl; intros s r H.
  - inv H. exists []. auto.
  - destruct s as [|c s]; [discriminate|].
    destruct (is_lower_hex c) eqn:Hc; [|discriminate].
    destruct (IH _ _ H) as (g & -> & Hl & Hg).
    exists (c :: g). simpl. rewrite Hc, Hg, Hl. auto.
Qed.

Lemma take_dash_split s r :
  take_dash s = Some r -> s = ("-"%char :: r).
Proof.
  destruct s as [|c s]; simpl; [discriminate|].
  destruct (Ascii.eqb_spec c "-"); intros H; inv H. reflexivity.
Qed.

Lemma is_canonical_split s :
  is_canonical s = true ->
  exists g1 g2 g3 g4 g5,
    Str.chars s =
      (g1 ++ "-"%char :: g2 ++ "-"%char :: g3 ++ "-"%char :: g4
          ++ "-"%char :: g5)%list /\
    (List.length g1 = 8 /\ List.length g2 = 4 /\ List.length g3 = 4 /\
     List.length g4 = 4 /\ List.length g5 = 12)%nat /\
    forallb is_lower_hex g1 = true /\ forallb is_lower_hex g2 = true /\
    forallb is_lower_hex g3 = true /\ forallb is_lower_hex g4 = true /\
    forallb is_lower_hex g5 = true.
Proof.
  unfold is_canonical, obind. intros H.
  destruct (take_hex 8 (Str.chars s)) as [r1|] eqn:T1; [|discriminate].
  destruct (take_dash r1) as [r2|] eqn:D1; [|discriminate].
  destruct (take_hex 4 r2) as [r3|] eqn:T2; [|discriminate].
  destruct (take_dash r3) as [r4|] eqn:D2; [|discriminate].
  destruct (take_hex 4 r4) as [r5|] eqn:T3; [|discriminate].
  destruct (take_dash r5) as [r6|] eqn:D3; [|discriminate].
  destruct (take_hex 4 r6) as [r7|] eqn:T4; [|discriminate].
  destruct (take_dash r7) as [r8|] eqn:D4; [|discriminate].
  destruct (take_hex 12 r8) as [[|? ?]|] eqn:T5; try discriminate.
  apply take_hex_split in T1, T2, T3, T4, T5.
  apply take_dash_split in D1, D2, D3, D4.
  destruct T1 as (g1 & E1 & L1 & F1). destruct T2 as (g2 & E2 & L2 & F2).
  destruct T3 as (g3 & E3 & L3 & F3). destruct T4 as (g4 & E4 & L4 & F4).
  destruct T5 as (g5 & E5 & L5 & F5).
  exists g1, g2, g3, g4, g5. subst. rewrite app_nil_r in E1.
  repeat split; assumption.
Qed.

Lemma slice_app {A : Type} (pre g post : list A) (a b : nat) :
  List.length pre = a -> List.length g = b ->
  firstn b (skipn a (pre ++ g ++ post)) = g.
Proof.
  intros <- <-. rewrite skipn_app, skipn_all, Nat.sub_diag. simpl.
  rewrite firstn_app, firstn_all, Nat.sub_diag. simpl. apply app_nil_r.
Qed.

(** The text that [str] gives back for the identifier read from a
    canonical text is that text. *)
Lemma uuid_text_roundtrip s :
  is_canonical s = true ->
  exists n, Uuid.of_str s = Ok n /\ Uuid.to_str n = s.
Proof.
  intros H. apply is_canonical_split in H.
  destruct H as (g1 & g2 & g3 & g4 & g5 & Hs & (L1 & L2 & L3 & L4 & L5)
                 & F1 & F2 & F3 & F4 & F5).
  set (ds := (g1 ++ g2 ++ g3 ++ g4 ++ g5)%list).
  assert (Fds : forallb is_lower_hex ds = true).
  { unfold ds. rewrite !forallb_app, F1, F2, F3, F4, F5. reflexivity. }
  assert (Lds : List.length ds = 32%nat).
  { unfold ds. rewrite !length_app, L1, L2, L3, L4, L5. reflexivity. }
  assert (Hex : forall g, forallb is_lower_hex g = true ->
                          forallb uuid_char g = true).
  { intros g. apply forallb_impl. intros c Hc. unfold uuid_char.
    rewrite Hc. reflexivity. }
  assert (Fs : forallb uuid_char (Str.chars s) = true).
  { rewrite Hs.
    repeat (rewrite forallb_app; apply andb_true_iff; split;
            [apply Hex; assumption | simpl]).
    apply Hex; assumption. }
  assert (Fnot : forall d, uuid_char d = false ->
            forallb (fun c => negb (Ascii.eqb d c)) (Str.chars s) = true).
  { intros d Hd. revert Fs. apply forallb_impl. intros c Hc.
    rewrite (uuid_char_not c d Hc Hd). reflexivity. }
  assert (Fbr : forallb (fun c => negb (Str.mem c (Str.chars "{}")))
                  (Str.chars s) = true).
  { revert Fs. apply forallb_impl. intros c Hc. simpl.
    rewrite (Ascii.eqb_sym c "{"), (Ascii.eqb_sym c "}").
    rewrite (uuid_char_not c "{" Hc eq_refl), (uuid_char_not c "}" Hc eq_refl).
    reflexivity. }
  assert (Hhex : Str.replace "-" ""
                   (Str.strip "{}"
                      (Str.replace "uuid:" "" (Str.replace "urn:" "" (Str.chars s))))
                 = ds).
  { unfold Str.replace, Str.strip.
    change (Str.chars "urn:") with ["u"; "r"; "n"; ":"]%char.
    change (Str.chars "uuid:") with ["u"; "u"; "i"; "d"; ":"]%char.
    change (Str.chars "-") with ["-"]%char.
    change (Str.chars "") with (@nil ascii).
    rewrite (replace_from_absent "u" _ _ (Str.chars s))
      by (apply Fnot; reflexivity).
    rewrite (replace_from_absent "u" _ _ (Str.chars s))
      by (apply Fnot; reflexivity).
    rewrite (lstrip_none _ _ Fbr), (rstrip_none _ _ Fbr).
    rewrite replace_char_filter, Hs.
    assert (Fg : forall g, forallb is_lower_hex g = true ->
              filter (fun c => negb (Ascii.eqb "-" c)) g = g).
    { intros g Hg. apply filter_all. revert Hg. apply forallb_impl.
      intros c Hc. destruct (lower_hex_not c "-" Hc eq_refl) as [E _].
      rewrite E. reflexivity. }
    assert (Fd : forall x, filter (fun c => negb (Ascii.eqb "-" c)) ("-"%char :: x)
                           = filter (fun c => negb (Ascii.eqb "-" c)) x)
      by reflexivity.
    repeat (rewrite filter_app, Fg, Fd by assumption).
    rewrite Fg by assumption. reflexivity. }
  exists (hex_fold 0 ds). split.
  - unfold Uuid.of_str. rewrite Hhex, Lds. simpl negb. cbv iota.
    rewrite int16_hex by (assumption || lia).
    pose proof (hex_fold_bound ds 0 Fds) as Hb. rewrite Lds in Hb.
    change ((0 + 1) * 16 ^ N.of_nat 32)%N
      with 340282366920938463463374607431768211456%N in Hb.
    change (2 ^ 128) with 340282366920938463463374607431768211456.
    replace (0 <=? Z.of_N (hex_fold 0 ds)) with true
      by (symmetry; apply Z.leb_le; lia).
    replace (Z.of_N (hex_fold 0 ds) <? 340282366920938463463374607431768211456)
      with true by (symmetry; apply Z.ltb_lt; lia).
    simpl andb. cbv iota. rewrite N2Z.id. reflexivity.
  - assert (Hd : Uuid.hex_digits 32 (hex_fold 0 ds) = ds).
    { rewrite <- Lds. apply hex_digits_fold, Fds. }
    unfold Uuid.to_str. rewrite Hd.
    change (8 - 0)%nat with 8%nat. change (12 - 8)%nat with 4%nat.
    change (16 - 12)%nat with 4%nat. change (20 - 16)%nat with 4%nat.
    change (32 - 20)%nat with 12%nat.
    assert (S1 : firstn 8 (skipn 0 ds) = g1).
    { apply (slice_app [] g1 (g2 ++ g3 ++ g4 ++ g5)); auto. }
    assert (S2 : firstn 4 (skipn 8 ds) = g2).
    { apply (slice_app g1 g2 (g3 ++ g4 ++ g5)); auto. }
    assert (S3 : firstn 4 (skipn 12 ds) = g3).
    { unfold ds. rewrite (app_assoc g1 g2).
      apply (slice_app (g1 ++ g2) g3 (g4 ++ g5)); auto.
      rewrite length_app, L1, L2. reflexivity. }
    assert (S4 : firstn 4 (skipn 16 ds) = g4).
    { unfold ds. rewrite (app_assoc g1 g2), (app_assoc (g1 ++ g2) g3).
      apply (slice_app ((g1 ++ g2) ++ g3) g4 g5); auto.
      rewrite !length_app, L1, L2, L3. reflexivity. }
    assert (S5 : firstn 12 (skipn 20 ds) = g5).
    { unfold ds.
      rewrite (app_assoc g1 g2), (app_assoc (g1 ++ g2) g3),
        (app_assoc ((g1 ++ g2) ++ g3) g4), <- (app_nil_r g5) at 1.
      apply (slice_app (((g1 ++ g2) ++ g3) ++ g4) g5 []); auto.
      rewrite !length_app, L1, L2, L3, L4. reflexivity. }
    rewrite S1, S2, S3, S4, S5, <- Hs.
    apply string_of_list_ascii_of_string.
Qed.

(** ** The round trip *)

Lemma UniqueIdType_create_instance env d x :
  klass d = UniqueIdType -> create_instance env d x = Uuid.UUID x.
Proof.
  destruct d as [k ? ? ? ? ? ? ? ? ?]. simpl. intros ->. reflexivity.
Qed.

Lemma UniqueIdType_to_model_data env d v :
  klass d = UniqueIdType -> to_model_data env d v = Ok (VStr (py_str env v)).
Proof.
  destruct d as [k ? ? ? ? ? ? ? ? ?]. simpl. intros ->. reflexivity.
Qed.

Lemma UUID_of_text s : Uuid.UUID (VStr s) = (n <- Uuid.of_str s ;; Ok (VUuid n)).
Proof. reflexivity. Qed.







(** For the two descriptors that call a collaborator, the round trip is
    the collaborator's: the key attribute of what the loader returns,
    the text of what [Hashed] builds. *)
Lemma collaborator_round_trip env :
  (forall model pk fl d x,
     construct env ForeignType (ArgsForeign model pk fl) = Ok d ->
     exists m k,
       ForeignType__model d = Some m /\
       ForeignType__model_primary_key d = Some k /\
       (y <- create_instance env d x ;; to_model_data env d y)
       = (inst <- load env m k x ;; py_getattr env inst k)) /\
  (forall fl d x,
     construct env HashType (ArgsFlags fl) = Ok d ->
     (y <- create_instance env d x ;; to_model_data env d y)
     = (h <- Hashed env x ;; Ok (VStr (py_str env h)))).
Proof.
  split.
  - intros model pk fl d x H. simpl in H. unfold ForeignType_init in H.
    apply bind_Ok in H. destruct H as [o [H1 H]].
    apply bind_Ok in H. destruct H as [m [Hm H]].
    apply ModelTypeBase_init_Ok in H1. destruct H1 as [-> _]. simpl in H. inv H.
    do 2 eexists. repeat split.
  - intros fl d x H. simpl in H. unfold inherited_init in H.
    apply ModelTypeBase_init_Ok in H. destruct H as [-> _]. reflexivity.
Qed.

(** The round trip at work on the stub classes. *)
Example round_trip_uuid :
  exists d,
    construct stub_env UniqueIdType (ArgsFlags no_flags) = Ok d /\
    (y <- create_instance stub_env d (VStr sample_uuid_text) ;;
     to_model_data stub_env d y) = Ok (VStr sample_uuid_text).
Proof. eexists. split; [reflexivity | vm_compute; reflexivity]. Qed.

Example round_trip_uppercase_is_normalised :
  exists d,
    construct stub_env UniqueIdType (ArgsFlags no_flags) = Ok d /\
    (y <- create_instance stub_env d (VStr "123E4567-E89B-12D3-A456-426614174000") ;;
     to_model_data stub_env d y) = Ok (VStr sample_uuid_text).
Proof. eexists. split; [reflexivity | vm_compute; reflexivity]. Qed.

Example round_trip_foreign :
  exists d,
    construct stub_env ForeignType (ArgsForeign (ByName "Order") None no_flags) = Ok d /\
    (y <- create_instance stub_env d (VInt 7) ;; to_model_data stub_env d y)
    = Ok (VInt 7).
Proof. eexists. split; reflexivity. Qed.

Example round_trip_hashed :
  exists d,
    construct stub_env HashType (ArgsFlags no_flags) = Ok d /\
    (y <- create_instance stub_env d (VStr "5f4dcc3b") ;; to_model_data stub_env d y)
    = Ok (VStr "5f4dcc3b").
Proof. eexists. split; reflexivity. Qed.

Example list_of_descriptor_converts :
  exists d,
    construct stub_env ListType
      (ArgsList (C_Descriptor EnumType) (ArgsEnum Color no_flags) no_flags) = Ok d /\
    create_instance stub_env d (VList []) = Ok (VList []) /\
    create_instance stub_env d (VList [VInt 3; VInt 1; VInt 2])
    = Ok (VList [BLUE; RED; GREEN]) /\
    to_model_data stub_env d (VList [BLUE; RED; GREEN])
    = Ok (VList [VInt 3; VInt 1; VInt 2]) /\
    create_instance stub_env d (VList [VInt 3; VInt 99]) = Raise ValueError.
Proof. eexists. repeat split. Qed.


(** * Further properties of the constructors *)

Lemma construct_Ok_non_null env k a d :
  construct env k a = Ok d ->
  arg_non_null (flags_of a) && is_None (base_default env k (flags_of a)) = false.
Proof.
  intros H.
  destruct (arg_non_null (flags_of a)) eqn:Hn; [|reflexivity].
  destruct (is_None (base_default env k (flags_of a))) eqn:Hd; [|reflexivity].
  rewrite (construct_non_null_None env k a Hn Hd) in H. discriminate.
Qed.

Lemma type_static d t :
  static_type (klass d) = Some t -> type_ d = Ok t.
Proof.
  destruct d as [k ? ? ? ? ? ? ? ? ?]. unfold type_. simpl.
  destruct k; simpl; intros H; inv H; reflexivity.
Qed.

(** [EnumType] and [ForeignType] never get past the base constructor
    with a default. *)
Lemma construct_dynamic_type_default env k a d :
  static_type k = None ->
  construct env k a = Ok d ->
  base_default env k (flags_of a) = VNone.
Proof.
  intros Hk H. unfold base_default.
  destruct (arg_default (flags_of a)) as [v|] eqn:Hv.
  - destruct (is_None v) eqn:Hn; [apply is_None_true, Hn|].
    exfalso.
    destruct k, a; simpl in Hk, Hv, H; try discriminate;
      unfold EnumType_init, ForeignType_init, inherited_init, default_or_None in H;
      rewrite Hv, (ModelTypeBase_init_default _ _ _ _ _ Hn) in H; discriminate.
  - destruct k; simpl in Hk; try discriminate; reflexivity.
Qed.

(** X1: the accessors of a constructed descriptor return what the call
    passed: [primary] as given, the default that the signature bound,
    and, unless [primary] is set, [unique] and [non_null] as given. *)
Theorem X1_accessors_return_arguments env k a d :
  construct env k a = Ok d ->
  klass d = k /\
  primary d = Ok (arg_primary (flags_of a)) /\
  default d = Ok (base_default env k (flags_of a)) /\
  (arg_primary (flags_of a) = false ->
   unique d = Ok (arg_unique (flags_of a)) /\
   non_null d = Ok (arg_non_null (flags_of a))).
Proof.
  intros H. apply construct_flags in H.
  destruct H as (Hk & Hp & Hn & Hu & Hd).
  split; [assumption|]. split; [assumption|]. split; [assumption|].
  intros E. rewrite E in Hn, Hu. split; assumption.
Qed.

Lemma X1_witness :
  exists d,
    construct stub_env StringType
      (ArgsFlags (Build_Flags false false true (Some (VStr "n/a")))) = Ok d /\
    primary d = Ok false /\ unique d = Ok true /\ non_null d = Ok false /\
    default d = Ok (VStr "n/a").
Proof.
  eexists. split; [reflexivity|].
  destruct (X1_accessors_return_arguments stub_env StringType
              (ArgsFlags (Build_Flags false false true (Some (VStr "n/a")))) _ eq_refl)
    as (_ & Hp & Hd & Hf).
  destruct (Hf eq_refl) as [Hu Hn]. repeat split; assumption.
Defined.

(** X2: a constructed descriptor that is not a primary key and answers
    [True] to [non_null] has a default other than [None]. *)
Theorem X2_non_null_has_default env k a d :
  construct env k a = Ok d ->
  primary d = Ok false ->
  non_null d = Ok true ->
  exists v, default d = Ok v /\ is_None v = false.
Proof.
  intros H Hp Hn. pose proof (construct_Ok_non_null _ _ _ _ H) as Hc.
  apply construct_flags in H. destruct H as (_ & Hp' & Hn' & _ & Hd).
  rewrite Hp in Hp'. inv Hp'.
  match goal with E : false = _ |- _ => rewrite <- E in Hn' end.
  rewrite Hn in Hn'. inv Hn'.
  match goal with E : true = _ |- _ => rewrite <- E in Hc end.
  simpl in Hc. eauto.
Qed.

Lemma X2_witness :
  exists d v,
    construct stub_env BoolType
      (ArgsFlags (Build_Flags false true false (Some (VBool false)))) = Ok d /\
    default d = Ok v /\ is_None v = false.
Proof.
  eexists.
  destruct (X2_non_null_has_default stub_env BoolType
              (ArgsFlags (Build_Flags false true false (Some (VBool false))))
              _ eq_refl eq_refl eq_refl) as (v & Hd & Hv).
  exists v. repeat split; assumption.
Defined.

(** X3: the default of a constructed descriptor, when it is not
    [None], is an instance of the descriptor's [type]. *)
Theorem X3_default_is_instance_of_type env k a d v :
  construct env k a = Ok d ->
  default d = Ok v ->
  is_None v = false ->
  exists t, type_ d = Ok t /\ isinstance v t = true.
Proof.
  intros H Hd Hv.
  destruct (construct_flags _ _ _ _ H) as (Hk & _ & _ & _ & Hd').
  assert (Ev : base_default env k (flags_of a) = v) by congruence.
  destruct (static_type k) as [t|] eqn:Hs.
  - exists t. split; [apply type_static; rewrite Hk; exact Hs|].
    destruct (isinstance v t) eqn:Hi; [reflexivity|]. exfalso.
    unfold base_default in Ev.
    destruct (arg_default (flags_of a)) as [v0|] eqn:Ha.
    + subst v0.
      rewrite (construct_default_mismatch env k a t v Hs Ha Hv Hi) in H.
      discriminate.
    + destruct k; simpl in Hs; try discriminate; subst v; simpl in Hv;
        try discriminate.
      inv Hs. simpl in Hi. discriminate.
  - rewrite (construct_dynamic_type_default env k a d Hs H) in Ev.
    subst v. discriminate.
Qed.

Lemma X3_witness :
  exists d t,
    construct stub_env UniqueIdType (ArgsFlags no_flags) = Ok d /\
    type_ d = Ok t /\ isinstance (VUuid (uuid4_at_def stub_env)) t = true.
Proof.
  eexists.
  destruct (X3_default_is_instance_of_type stub_env UniqueIdType
              (ArgsFlags no_flags) _ (VUuid (uuid4_at_def stub_env))
              eq_refl eq_refl eq_refl) as (t & Ht & Hi).
  exists t. repeat split; assumption.
Defined.

(** X4: for the eight classes whose [type] is fixed, a default other
    than [None] is accepted exactly when it is an instance of that type
    ([isinstance], so a [bool] passes for [int]); otherwise the
    constructor raises [TypeError]. *)
Theorem X4_default_checked_by_isinstance env k a t v :
  static_type k = Some t ->
  arg_default (flags_of a) = Some v ->
  is_None v = false ->
  own_args_ok env k a = true ->
  if isinstance v t
  then is_ok (construct env k a) = true
  else construct env k a = Raise TypeError.
Proof.
  intros Hs Ha Hv Ho. destruct (isinstance v t) eqn:Hi.
  - eapply construct_default_match; eassumption.
  - eapply construct_default_mismatch; eassumption.
Qed.

Lemma X4_witness :
  is_ok (construct stub_env IntType
           (ArgsFlags (Build_Flags false true false (Some (VBool true))))) = true /\
  construct stub_env BoolType
    (ArgsFlags (Build_Flags false true false (Some (VInt 1)))) = Raise TypeError.
Proof.
  split.
  - apply (X4_default_checked_by_isinstance stub_env IntType
             (ArgsFlags (Build_Flags false true false (Some (VBool true))))
             C_int (VBool true)); reflexivity.
  - apply (X4_default_checked_by_isinstance stub_env BoolType
             (ArgsFlags (Build_Flags false true false (Some (VInt 1))))
             C_bool (VInt 1)); reflexivity.
Defined.

(** X5: the [type] of a constructed descriptor never fails: it is the
    fixed class of the descriptor class, the enumeration given to
    [EnumType], or the model given to (or looked up for) [ForeignType]. *)
Theorem X5_type_of_constructed env k a d :
  construct env k a = Ok d ->
  match k, a with
  | EnumType, ArgsEnum e _ => type_ d = Ok (C_Enum e)
  | ForeignType, ArgsForeign (ByClass m) _ _ => type_ d = Ok (C_Model m)
  | ForeignType, ArgsForeign (ByName name) _ _ =>
      exists m, get_loaded_model env name = Ok m /\ type_ d = Ok (C_Model m)
  | _, _ => exists t, static_type k = Some t /\ type_ d = Ok t
  end.
Proof.
  intros H. pose proof (construct_flags _ _ _ _ H) as (Hk & _).
  destruct k, a; simpl in H; try discriminate;
    try (eexists; split; [reflexivity|]; apply type_static; rewrite Hk; reflexivity).
  - (* ForeignType *)
    unfold ForeignType_init in H.
    apply bind_Ok in H. destruct H as [o [H1 H]].
    apply bind_Ok in H. destruct H as [m [Hm H]].
    apply ModelTypeBase_init_Ok in H1. destruct H1 as [-> _]. simpl in H. inv H.
    destruct model; [exists m; split; [assumption|reflexivity] | inv Hm; reflexivity].
  - (* EnumType *)
    unfold EnumType_init in H.
    apply bind_Ok in H. destruct H as [o [H1 H]]. inv H.
    apply ModelTypeBase_init_Ok in H1. destruct H1 as [-> _]. reflexivity.
Qed.

Lemma X5_witness :
  exists d,
    construct stub_env ForeignType (ArgsForeign (ByName "Order") None no_flags) = Ok d /\
    exists m, get_loaded_model stub_env "Order" = Ok m /\ type_ d = Ok (C_Model m).
Proof.
  eexists. split; [reflexivity|].
  apply (X5_type_of_constructed stub_env ForeignType
           (ArgsForeign (ByName "Order") None no_flags)).
  reflexivity.
Defined.

(** X6: when a model is named and the registry does not know the name,
    [ForeignType] raises what the registry raises, once the base
    constructor's own checks have passed. *)
Theorem X6_unknown_model_name env name pk fl e :
  get_loaded_model env name = Raise e ->
  arg_non_null fl = false ->
  default_absent ForeignType fl = true ->
  construct env ForeignType (ArgsForeign (ByName name) pk fl) = Raise e.
Proof.
  intros Hr Hn Hd.
  rewrite (default_absent_base_default env) in Hd. apply is_None_true in Hd.
  simpl. unfold ForeignType_init, inherited_init.
  unfold base_default in Hd. unfold default_or_None.
  destruct (arg_default fl) as [v|]; [subst v|];
    rewrite ModelTypeBase_init_None, Hn; simpl; rewrite Hr; reflexivity.
Qed.

Lemma X6_witness :
  construct stub_env ForeignType (ArgsForeign (ByName "Invoice") None no_flags)
  = Raise LookupError.
Proof.
  apply (X6_unknown_model_name stub_env "Invoice" None no_flags LookupError);
    reflexivity.
Defined.

(** X7: when the element class of a list is a descriptor class and the
    forwarded arguments make its constructor raise, [ListType] raises
    the same exception, provided its own base checks have passed. *)
Theorem X7_element_constructor_error env k rest fl e :
  construct env k rest = Raise e ->
  is_ok (inherited_init (new_obj ListType) fl) = true ->
  construct env ListType (ArgsList (C_Descriptor k) rest fl) = Raise e.
Proof.
  intros He Hb.
  change (construct env ListType (ArgsList (C_Descriptor k) rest fl))
    with (self <- inherited_init (new_obj ListType) fl ;;
          self <- (x <- construct env k rest ;; Ok (set_data_instance x self)) ;;
          Ok (set_data_type (C_Descriptor k) self)).
  rewrite He.
  destruct (inherited_init (new_obj ListType) fl); [reflexivity | discriminate].
Qed.

Lemma X7_witness :
  construct stub_env ListType
    (ArgsList (C_Descriptor IntType)
       (ArgsFlags (Build_Flags false true false None)) no_flags)
  = Raise TypeError.
Proof.
  apply (X7_element_constructor_error stub_env IntType
           (ArgsFlags (Build_Flags false true false None)) no_flags TypeError);
    reflexivity.
Defined.

(** * Further properties of the list conversions *)

Lemma mapM_first_error {A B : Type} (f : A -> result B) l1 a l2 e :
  Forall (fun v => is_ok (f v) = true) l1 ->
  f a = Raise e ->
  mapM f (l1 ++ a :: l2) = Raise e.
Proof.
  intros Hl Ha. induction Hl as [|x l1 Hx _ IH]; simpl.
  - rewrite Ha. reflexivity.
  - destruct (f x); [|discriminate]. simpl. rewrite IH. reflexivity.
Qed.

(** X8: a list over a descriptor class converts a sequence element by
    element, in both directions: the result has the length of the
    argument and its [i]-th element is the element descriptor's
    conversion of the [i]-th element of the argument. *)
Theorem X8_list_elementwise env k rest fl d :
  construct env ListType (ArgsList (C_Descriptor k) rest fl) = Ok d ->
  exists elem,
    ListType__data_instance d = Some elem /\
    (forall l y,
       create_instance env d (VList l) = Ok y ->
       exists r, y = VList r /\ List.length r = List.length l /\
         forall i a, nth_error l i = Some a ->
           exists b, nth_error r i = Some b /\ create_instance env elem a = Ok b) /\
    (forall l y,
       to_model_data env d (VList l) = Ok y ->
       exists r, y = VList r /\ List.length r = List.length l /\
         forall i a, nth_error l i = Some a ->
           exists b, nth_error r i = Some b /\ to_model_data env elem a = Ok b).
Proof.
  intros H. destruct (ListType_over_descriptor _ _ _ _ _ H) as (elem & _ & Hdi & Hl).
  exists elem. split; [exact Hdi|]. split; intros l y Hy.
  - destruct (Hl l) as [Hc _]. rewrite Hc in Hy.
    apply bind_Ok in Hy. destruct Hy as [r [Hr Hy]]. inv Hy.
    exists r. split; [reflexivity|]. split; [eapply mapM_length; eassumption|].
    eapply mapM_nth; eassumption.
  - destruct (Hl l) as [_ Hc]. rewrite Hc in Hy.
    apply bind_Ok in Hy. destruct Hy as [r [Hr Hy]]. inv Hy.
    exists r. split; [reflexivity|]. split; [eapply mapM_length; eassumption|].
    eapply mapM_nth; eassumption.
Qed.

Lemma X8_witness :
  exists d elem,
    construct stub_env ListType
      (ArgsList (C_Descriptor EnumType) (ArgsEnum Color no_flags) no_flags) = Ok d /\
    ListType__data_instance d = Some elem /\
    exists r,
      create_instance stub_env d (VList [VInt 3; VInt 1]) = Ok (VList r) /\
      List.length r = 2%nat /\
      exists b, nth_error r 1 = Some b /\ create_instance stub_env elem (VInt 1) = Ok b.
Proof.
  eexists.
  destruct (X8_list_elementwise stub_env EnumType (ArgsEnum Color no_flags) no_flags
              _ eq_refl) as (elem & Hdi & Hc & _).
  exists elem. split; [reflexivity|]. split; [exact Hdi|].
  destruct (Hc [VInt 3; VInt 1] _ eq_refl) as (r & Hr & Hlen & Hnth).
  exists r. split; [rewrite <- Hr; reflexivity|]. split; [exact Hlen|].
  apply (Hnth 1%nat (VInt 1)). reflexivity.
Defined.

(** X9: when the elements before position [i] convert and the element
    at [i] makes the element descriptor raise, the list conversion
    raises that same exception and returns nothing. *)
Theorem X9_list_first_error env k rest fl d :
  construct env ListType (ArgsList (C_Descriptor k) rest fl) = Ok d ->
  exists elem,
    ListType__data_instance d = Some elem /\
    (forall l1 a l2 e,
       Forall (fun v => is_ok (create_instance env elem v) = true) l1 ->
       create_instance env elem a = Raise e ->
       create_instance env d (VList (l1 ++ a :: l2)) = Raise e) /\
    (forall l1 a l2 e,
       Forall (fun v => is_ok (to_model_data env elem v) = true) l1 ->
       to_model_data env elem a = Raise e ->
       to_model_data env d (VList (l1 ++ a :: l2)) = Raise e).
Proof.
  intros H. destruct (ListType_over_descriptor _ _ _ _ _ H) as (elem & _ & Hdi & Hl).
  exists elem. split; [exact Hdi|]. split; intros l1 a l2 e Hok Ha.
  - destruct (Hl (l1 ++ a :: l2)%list) as [Hc _]. rewrite Hc.
    rewrite (mapM_first_error _ _ _ _ _ Hok Ha). reflexivity.
  - destruct (Hl (l1 ++ a :: l2)%list) as [_ Hc]. rewrite Hc.
    rewrite (mapM_first_error _ _ _ _ _ Hok Ha). reflexivity.
Qed.

Lemma X9_witness :
  exists d,
    construct stub_env ListType
      (ArgsList (C_Descriptor EnumType) (ArgsEnum Color no_flags) no_flags) = Ok d /\
    create_instance stub_env d (VList [VInt 3; VInt 99; VInt 1]) = Raise ValueError.
Proof.
  eexists. split; [reflexivity|].
  destruct (X9_list_first_error stub_env EnumType (ArgsEnum Color no_flags) no_flags
              _ eq_refl) as (elem & Hdi & Hc & _).
  inversion Hdi; subst elem.
  apply (Hc [VInt 3] (VInt 99) [VInt 1] ValueError).
  - constructor; [reflexivity | constructor].
  - reflexivity.
Defined.

(** X10: a list over a plain class (not a model, an enumeration or a
    descriptor class) returns its argument itself in both directions,
    whatever the argument is. *)
Theorem X10_list_of_plain_class_is_identity env dt rest fl d :
  construct env ListType (ArgsList dt rest fl) = Ok d ->
  is_plain_class dt = true ->
  forall v, create_instance env d v = Ok v /\ to_model_data env d v = Ok v.
Proof.
  intros H Hp. eapply ListType_over_other_class; [exact H|].
  destruct dt; simpl in Hp; try discriminate; reflexivity.
Qed.

Lemma X10_witness :
  exists d,
    construct stub_env ListType (ArgsList C_int (ArgsFlags no_flags) no_flags) = Ok d /\
    create_instance stub_env d (VList [VInt 1; VStr "two"])
    = Ok (VList [VInt 1; VStr "two"]) /\
    to_model_data stub_env d VNone = Ok VNone.
Proof.
  eexists. split; [reflexivity|].
  pose proof (X10_list_of_plain_class_is_identity stub_env C_int
                (ArgsFlags no_flags) no_flags _ eq_refl eq_refl) as Hid.
  split; apply Hid.
Defined.

(** X11: a list over a descriptor class raises [TypeError], in both
    directions, on a value that cannot be iterated. *)
Theorem X11_list_of_non_iterable env k rest fl d v :
  construct env ListType (ArgsList (C_Descriptor k) rest fl) = Ok d ->
  is_iterable v = false ->
  create_instance env d v = Raise TypeError /\
  to_model_data env d v = Raise TypeError.
Proof.
  cbn -[construct]. intros H Hv.
  apply bind_Ok in H. destruct H as [o [H1 H]].
  apply bind_Ok in H. destruct H as [o' [H2 H]]. inv H.
  apply bind_Ok in H2. destruct H2 as [elem [_ H2]]. inv H2.
  apply ModelTypeBase_init_Ok in H1. destruct H1 as [-> _].
  destruct v; simpl in Hv; try discriminate; split; reflexivity.
Qed.

Lemma X11_witness :
  exists d,
    construct stub_env ListType
      (ArgsList (C_Descriptor StringType) (ArgsFlags no_flags) no_flags) = Ok d /\
    create_instance stub_env d VNone = Raise TypeError /\
    to_model_data stub_env d (VInt 3) = Raise TypeError.
Proof.
  eexists. split; [reflexivity|]. split.
  - apply (X11_list_of_non_iterable stub_env StringType (ArgsFlags no_flags)
             no_flags _ VNone eq_refl eq_refl).
  - apply (X11_list_of_non_iterable stub_env StringType (ArgsFlags no_flags)
             no_flags _ (VInt 3) eq_refl eq_refl).
Defined.

(** X12: every constructed list descriptor, whatever its element class,
    converts the empty sequence to the empty sequence. *)
Theorem X12_list_of_empty env dt rest fl d :
  construct env ListType (ArgsList dt rest fl) = Ok d ->
  create_instance env d (VList []) = Ok (VList []) /\
  to_model_data env d (VList []) = Ok (VList []).
Proof.
  intros H. destruct (issubclass_ModelTypeBase dt) eqn:Hdt.
  - destruct dt; try discriminate.
    destruct (ListType_over_descriptor _ _ _ _ _ H) as (elem & _ & _ & Hl).
    destruct (Hl []) as [Hc Ht]. rewrite Hc, Ht. split; reflexivity.
  - eapply ListType_over_other_class; eassumption.
Qed.

Lemma X12_witness :
  exists d,
    construct stub_env ListType
      (ArgsList (C_Descriptor UniqueIdType) (ArgsFlags no_flags) no_flags) = Ok d /\
    create_instance stub_env d (VList []) = Ok (VList []) /\
    to_model_data stub_env d (VList []) = Ok (VList []).
Proof.
  eexists. split; [reflexivity|].
  apply (X12_list_of_empty stub_env (C_Descriptor UniqueIdType)
           (ArgsFlags no_flags) no_flags). reflexivity.
Defined.

(** * Further properties of the identifier conversions *)

Lemma hex_char_lower d :
  (d < 16)%N -> is_lower_hex (Uuid.hex_char d) = true /\ hv (Uuid.hex_char d) = d.
Proof.
  intros H. destruct d as [|p]; [split; reflexivity|].
  do 4 (destruct p as [p|p|]; try (split; reflexivity)); exfalso; lia.
Qed.

Lemma hex_digits_length k : forall n, List.length (Uuid.hex_digits k n) = k.
Proof.
  induction k as [|k IH]; intros n; [reflexivity|].
  change (Uuid.hex_digits (S k) n)
    with (Uuid.hex_digits k (n / 16) ++ [Uuid.hex_char (n mod 16)])%list.
  rewrite length_app, IH. simpl. lia.
Qed.

Lemma hex_digits_lower k : forall n,
  forallb is_lower_hex (Uuid.hex_digits k n) = true.
Proof.
  induction k as [|k IH]; intros n; [reflexivity|].
  change (Uuid.hex_digits (S k) n)
    with (Uuid.hex_digits k (n / 16) ++ [Uuid.hex_char (n mod 16)])%list.
  rewrite forallb_app, IH.
  assert (Hlt : (n mod 16 < 16)%N) by (apply N.mod_lt; discriminate).
  destruct (hex_char_lower _ Hlt) as [Hl _].
  cbn [forallb]. rewrite Hl. reflexivity.
Qed.

Lemma hex_fold_digits k : forall n,
  hex_fold 0 (Uuid.hex_digits k n) = (n mod 16 ^ N.of_nat k)%N.
Proof.
  induction k as [|k IH]; intros n.
  - unfold hex_fold. simpl. rewrite N.mod_1_r. reflexivity.
  - change (Uuid.hex_digits (S k) n)
      with (Uuid.hex_digits k (n / 16) ++ [Uuid.hex_char (n mod 16)])%list.
    assert (E : forall ds c, hex_fold 0 (ds ++ [c]) = (16 * hex_fold 0 ds + hv c)%N).
    { intros ds c. unfold hex_fold. rewrite fold_left_app. reflexivity. }
    assert (Hlt : (n mod 16 < 16)%N) by (apply N.mod_lt; discriminate).
    destruct (hex_char_lower _ Hlt) as [_ Hv].
    rewrite E, IH, Hv.
    replace (N.of_nat (S k)) with (N.succ (N.of_nat k)) by lia.
    rewrite N.pow_succ_r', N.Div0.mod_mul_r. lia.
Qed.

Lemma forallb_firstn {A : Type} (P : A -> bool) n : forall l,
  forallb P l = true -> forallb P (firstn n l) = true.
Proof.
  induction n as [|n IH]; intros [|a l]; simpl; try reflexivity.
  intros H. apply andb_true_iff in H. destruct H as [Ha Hl].
  rewrite Ha, (IH _ Hl). reflexivity.
Qed.

Lemma forallb_skipn {A : Type} (P : A -> bool) n : forall l,
  forallb P l = true -> forallb P (skipn n l) = true.
Proof.
  induction n as [|n IH]; intros [|a l]; simpl; try reflexivity; try tauto.
  intros H. apply andb_true_iff in H. destruct H as [_ Hl]. apply IH, Hl.
Qed.

Lemma take_hex_app k g r :
  List.length g = k ->
  forallb is_lower_hex g = true ->
  take_hex k (g ++ r) = Some r.
Proof.
  intros <-. induction g as [|c g IH]; simpl; [reflexivity|].
  intros H. apply andb_true_iff in H. destruct H as [Hc Hg].
  rewrite Hc. apply IH, Hg.
Qed.

Lemma canonical_of_groups g1 g2 g3 g4 g5 :
  (List.length g1 = 8 /\ List.length g2 = 4 /\ List.length g3 = 4 /\
   List.length g4 = 4 /\ List.length g5 = 12)%nat ->
  forallb is_lower_hex g1 = true -> forallb is_lower_hex g2 = true ->
  forallb is_lower_hex g3 = true -> forallb is_lower_hex g4 = true ->
  forallb is_lower_hex g5 = true ->
  is_canonical
    (Str.of_chars
       (g1 ++ "-"%char :: g2 ++ "-"%char :: g3 ++ "-"%char :: g4
          ++ "-"%char :: g5)%list) = true.
Proof.
  intros (L1 & L2 & L3 & L4 & L5) F1 F2 F3 F4 F5.
  unfold is_canonical, Str.chars, Str.of_chars.
  rewrite list_ascii_of_string_of_list_ascii.
  rewrite (take_hex_app 8 g1 _ L1 F1). cbn [obind take_dash Ascii.eqb Bool.eqb].
  rewrite (take_hex_app 4 g2 _ L2 F2). cbn [obind take_dash Ascii.eqb Bool.eqb].
  rewrite (take_hex_app 4 g3 _ L3 F3). cbn [obind take_dash Ascii.eqb Bool.eqb].
  rewrite (take_hex_app 4 g4 _ L4 F4). cbn [obind take_dash Ascii.eqb Bool.eqb].
  rewrite <- (app_nil_r g5), (take_hex_app 12 g5 _ L5 F5). reflexivity.
Qed.

Lemma slices_concat {A : Type} (hex : list A) :
  List.length hex = 32%nat ->
  (firstn 8 (skipn 0 hex) ++ firstn 4 (skipn 8 hex) ++ firstn 4 (skipn 12 hex)
     ++ firstn 4 (skipn 16 hex) ++ firstn 12 (skipn 20 hex))%list = hex.
Proof.
  intros H.
  do 32 (destruct hex as [|? hex]; [simpl in H; discriminate|]).
  destruct hex; [reflexivity | simpl in H; discriminate].
Qed.

(** The text of an identifier: five groups of lowercase digits, which
    together are the 32 digits of its number. *)
Lemma to_str_groups n :
  exists g1 g2 g3 g4 g5,
    Uuid.to_str n =
      Str.of_chars
        (g1 ++ "-"%char :: g2 ++ "-"%char :: g3 ++ "-"%char :: g4
            ++ "-"%char :: g5)%list /\
    (List.length g1 = 8 /\ List.length g2 = 4 /\ List.length g3 = 4 /\
     List.length g4 = 4 /\ List.length g5 = 12)%nat /\
    (forallb is_lower_hex g1 = true /\ forallb is_lower_hex g2 = true /\
     forallb is_lower_hex g3 = true /\ forallb is_lower_hex g4 = true /\
     forallb is_lower_hex g5 = true) /\
    (g1 ++ g2 ++ g3 ++ g4 ++ g5)%list = Uuid.hex_digits 32 n.
Proof.
  pose proof (hex_digits_length 32 n) as Lh.
  pose proof (hex_digits_lower 32 n) as Fh.
  set (hex := Uuid.hex_digits 32 n) in *.
  exists (firstn 8 (skipn 0 hex)), (firstn 4 (skipn 8 hex)),
    (firstn 4 (skipn 12 hex)), (firstn 4 (skipn 16 hex)),
    (firstn 12 (skipn 20 hex)).
  split; [reflexivity|]. split; [|split].
  - rewrite !length_firstn, !length_skipn, Lh. repeat split; reflexivity.
  - repeat split; apply forallb_firstn, forallb_skipn, Fh.
  - apply slices_concat, Lh.
Qed.

Lemma to_str_canonical n : is_canonical (Uuid.to_str n) = true.
Proof.
  destruct (to_str_groups n)
    as (g1 & g2 & g3 & g4 & g5 & -> & L & (F1 & F2 & F3 & F4 & F5) & _).
  apply canonical_of_groups; assumption.
Qed.

Lemma to_str_digits n :
  filter (fun c => negb (Ascii.eqb "-" c)) (Str.chars (Uuid.to_str n))
  = Uuid.hex_digits 32 n.
Proof.
  destruct (to_str_groups n)
    as (g1 & g2 & g3 & g4 & g5 & -> & _ & (F1 & F2 & F3 & F4 & F5) & <-).
  unfold Str.chars, Str.of_chars. rewrite list_ascii_of_string_of_list_ascii.
  assert (Fg : forall g, forallb is_lower_hex g = true ->
            filter (fun c => negb (Ascii.eqb "-" c)) g = g).
  { intros g Hg. apply filter_all. revert Hg. apply forallb_impl.
    intros c Hc. destruct (lower_hex_not c "-" Hc eq_refl) as [E _].
    rewrite E. reflexivity. }
  assert (Fd : forall x, filter (fun c => negb (Ascii.eqb "-" c)) ("-"%char :: x)
                         = filter (fun c => negb (Ascii.eqb "-" c)) x)
    by reflexivity.
  repeat (rewrite filter_app, Fg, Fd by assumption).
  rewrite Fg by assumption. reflexivity.
Qed.

Lemma of_str_bound s n : Uuid.of_str s = Ok n -> (n < 2 ^ 128)%N.
Proof.
  unfold Uuid.of_str.
  destruct (negb _); [discriminate|].
  destruct (Str.int16 _) as [i|]; [|discriminate].
  destruct (0 <=? i) eqn:H0; [|discriminate].
  destruct (i <? 2 ^ 128) eqn:H1; [|discriminate].
  simpl. intros H. inv H.
  apply Z.leb_le in H0. apply Z.ltb_lt in H1.
  change (2 ^ 128) with 340282366920938463463374607431768211456 in H1.
  change (2 ^ 128)%N with 340282366920938463463374607431768211456%N. lia.
Qed.

Lemma of_str_to_str n :
  (n < 2 ^ 128)%N -> Uuid.of_str (Uuid.to_str n) = Ok n.
Proof.
  intros Hn.
  destruct (uuid_text_roundtrip _ (to_str_canonical n)) as (n' & Hof & Hto).
  rewrite Hof. f_equal.
  pose proof (of_str_bound _ _ Hof) as Hn'.
  assert (Hd : Uuid.hex_digits 32 n' = Uuid.hex_digits 32 n).
  { rewrite <- !to_str_digits, Hto. reflexivity. }
  apply (f_equal (hex_fold 0)) in Hd. rewrite !hex_fold_digits in Hd.
  change (16 ^ N.of_nat 32)%N with (2 ^ 128)%N in Hd.
  rewrite !N.mod_small in Hd by assumption. exact Hd.
Qed.

(** X13: [to_model_data] of a [UniqueIdType] turns any identifier into
    a canonical text (8-4-4-4-12 lowercase hexadecimal digits), and
    [create_instance] reads that text back as the same identifier. *)
Theorem X13_identifier_text_round_trip env d n :
  klass d = UniqueIdType ->
  (n < 2 ^ 128)%N ->
  exists s,
    to_model_data env d (VUuid n) = Ok (VStr s) /\
    is_canonical s = true /\
    create_instance env d (VStr s) = Ok (VUuid n).
Proof.
  intros Hk Hn. exists (Uuid.to_str n).
  split; [apply UniqueIdType_to_model_data, Hk|].
  split; [apply to_str_canonical|].
  rewrite (UniqueIdType_create_instance _ _ _ Hk), UUID_of_text,
    (of_str_to_str n Hn).
  reflexivity.
Qed.

Lemma X13_witness :
  exists d s,
    construct stub_env UniqueIdType (ArgsFlags no_flags) = Ok d /\
    to_model_data stub_env d (VUuid 255) = Ok (VStr s) /\
    is_canonical s = true /\
    create_instance stub_env d (VStr s) = Ok (VUuid 255).
Proof.
  eexists.
  destruct (X13_identifier_text_round_trip stub_env
              (mkObj UniqueIdType (Some false) (Some false) (Some false)
                 (Some (VUuid (uuid4_at_def stub_env))) None None None None None)
              255 eq_refl eq_refl) as (s & Ht & Hc & Hi).
  exists s. split; [reflexivity|]. repeat split; assumption.
Defined.

(** X14: whatever text [create_instance] of a [UniqueIdType] accepts
    (uppercase, braces, a [urn:uuid:] prefix), the text that
    [to_model_data] gives for the result is canonical and converts to
    that same result again: one round trip normalises. *)
Theorem X14_identifier_normalisation env d x y :
  klass d = UniqueIdType ->
  create_instance env d x = Ok y ->
  exists s,
    to_model_data env d y = Ok (VStr s) /\
    is_canonical s = true /\
    create_instance env d (VStr s) = Ok y.
Proof.
  intros Hk H. rewrite (UniqueIdType_create_instance _ _ _ Hk) in H.
  destruct x; try discriminate H.
  rewrite UUID_of_text in H.
  apply bind_Ok in H. destruct H as [n [Hof H]]. inv H.
  exists (Uuid.to_str n).
  split; [apply UniqueIdType_to_model_data, Hk|].
  split; [apply to_str_canonical|].
  rewrite (UniqueIdType_create_instance _ _ _ Hk), UUID_of_text,
    (of_str_to_str n (of_str_bound _ _ Hof)).
  reflexivity.
Qed.

Lemma X14_witness :
  exists d y s,
    construct stub_env UniqueIdType (ArgsFlags no_flags) = Ok d /\
    create_instance stub_env d (VStr "urn:uuid:{123E4567-E89B-12D3-A456-426614174000}")
    = Ok y /\
    to_model_data stub_env d y = Ok (VStr s) /\
    is_canonical s = true /\
    create_instance stub_env d (VStr s) = Ok y.
Proof.
  eexists. eexists.
  destruct (X14_identifier_normalisation stub_env
              (mkObj UniqueIdType (Some false) (Some false) (Some false)
                 (Some (VUuid (uuid4_at_def stub_env))) None None None None None)
              (VStr "urn:uuid:{123E4567-E89B-12D3-A456-426614174000}")
              (VUuid 24249434048109030647017182301789831168)
              eq_refl eq_refl) as (s & Ht & Hc & Hi).
  exists s. split; [reflexivity|]. split; [reflexivity|].
  repeat split; assumption.
Defined.

Lemma length_replace_from_nil old : forall s k,
  (List.length (Str.replace_from old [] k s) <= List.length s)%nat.
Proof.
  induction s as [|c s IH]; intros k; simpl; [lia|].
  destruct k as [|k].
  - destruct (Str.is_prefix old (c :: s)); simpl.
    + specialize (IH (Nat.pred (List.length old))). lia.
    + specialize (IH O). lia.
  - specialize (IH k). lia.
Qed.

Lemma length_lstrip set : forall s,
  (List.length (Str.lstrip set s) <= List.length s)%nat.
Proof.
  induction s as [|c s IH]; simpl; [lia|].
  destruct (Str.mem c set); simpl; lia.
Qed.

Lemma length_rstrip set s :
  (List.length (Str.rstrip set s) <= List.length s)%nat.
Proof.
  unfold Str.rstrip. rewrite length_rev.
  pose proof (length_lstrip set (rev s)) as H. rewrite length_rev in H. exact H.
Qed.

Lemma chars_length s : List.length (Str.chars s) = String.length s.
Proof.
  unfold Str.chars. induction s as [|c s IH]; simpl; [reflexivity|].
  rewrite IH. reflexivity.
Qed.

(** X15: a text of fewer than 32 characters, the empty text included,
    is never an identifier: [create_instance] of a [UniqueIdType] raises
    [ValueError] on it. *)
Theorem X15_short_text_is_rejected env d s :
  klass d = UniqueIdType ->
  (String.length s < 32)%nat ->
  create_instance env d (VStr s) = Raise ValueError.
Proof.
  intros Hk Hs.
  rewrite (UniqueIdType_create_instance _ _ _ Hk), UUID_of_text.
  unfold Uuid.of_str.
  set (hex := Str.replace "-" "" _).
  assert (Hl : (List.length hex < 32)%nat).
  { unfold hex, Str.replace, Str.strip.
    change (Str.chars "") with (@nil ascii).
    eapply Nat.le_lt_trans; [apply length_replace_from_nil|].
    eapply Nat.le_lt_trans; [apply length_rstrip|].
    eapply Nat.le_lt_trans; [apply length_lstrip|].
    eapply Nat.le_lt_trans; [apply length_replace_from_nil|].
    eapply Nat.le_lt_trans; [apply length_replace_from_nil|].
    rewrite chars_length. exact Hs. }
  destruct (Nat.eqb_spec (List.length hex) 32) as [E|_]; [lia|].
  reflexivity.
Qed.

Lemma X15_witness :
  exists d,
    construct stub_env UniqueIdType (ArgsFlags no_flags) = Ok d /\
    create_instance stub_env d (VStr "") = Raise ValueError /\
    create_instance stub_env d (VStr "123e4567-e89b-12d3-a456") = Raise ValueError.
Proof.
  eexists. split; [reflexivity|]. split.
  - apply X15_short_text_is_rejected; [reflexivity | simpl; lia].
  - apply X15_short_text_is_rejected; [reflexivity | simpl; lia].
Defined.

(** * Further properties of the enumeration conversions *)




(** * Acceptance of the base constructor *)

(** X17: for the seven classes constructed from the four shared
    arguments alone, the constructor succeeds exactly when the two base
    checks pass: [non_null] comes with a default, and a default is an
    instance of the class's type. *)
Theorem X17_constructor_acceptance env k fl t :
  static_type k = Some t ->
  k <> ListType ->
  is_ok (construct env k (ArgsFlags fl)) =
  let v := base_default env k fl in
  negb (arg_non_null fl && is_None v) && (is_None v || isinstance v t).
Proof.
  intros Hs Hk.
  assert (E : construct env k (ArgsFlags fl) =
              ModelTypeBase_init (new_obj k) (arg_primary fl) (arg_non_null fl)
                (arg_unique fl) (base_default env k fl)).
  { destruct k; simpl in Hs; try discriminate; try contradiction; reflexivity. }
  rewrite E. cbv zeta.
  destruct (is_None (base_default env k fl)) eqn:Hn.
  - apply is_None_true in Hn. rewrite Hn, ModelTypeBase_init_None.
    destruct (arg_non_null fl); reflexivity.
  - rewrite (ModelTypeBase_init_default _ _ _ _ _ Hn), andb_false_r.
    rewrite (type_static (new_obj k) t Hs).
    destruct (isinstance (base_default env k fl) t); reflexivity.
Qed.

Lemma X17_witness :
  is_ok (construct stub_env FloatType
           (ArgsFlags (Build_Flags false true false (Some (VInt 1))))) = false /\
  is_ok (construct stub_env UniqueIdType
           (ArgsFlags (Build_Flags false true false None))) = true.
Proof.
  split.
  - rewrite (X17_constructor_acceptance stub_env FloatType
               (Build_Flags false true false (Some (VInt 1))) C_float eq_refl);
      [reflexivity | discriminate].
  - rewrite (X17_constructor_acceptance stub_env UniqueIdType
               (Build_Flags false true false None) C_UUID eq_refl);
      [reflexivity | discriminate].
Defined.

(** X18: the element descriptor of a list over a descriptor class is
    what that class constructs from the forwarded arguments alone; the
    list's own [primary], [non_null], [unique] and [default] do not
    reach it. *)
Theorem X18_list_flags_stay_with_the_list env k rest fl fl' d d' :
  construct env ListType (ArgsList (C_Descriptor k) rest fl) = Ok d ->
  construct env ListType (ArgsList (C_Descriptor k) rest fl') = Ok d' ->
  exists elem,
    construct env k rest = Ok elem /\
    ListType__data_instance d = Some elem /\
    ListType__data_instance d' = Some elem.
Proof.
  intros H H'.
  destruct (ListType_over_descriptor _ _ _ _ _ H) as (elem & He & Hd & _).
  destruct (ListType_over_descriptor _ _ _ _ _ H') as (elem' & He' & Hd' & _).
  rewrite He in He'. inv He'. exists elem'. auto.
Qed.

Lemma X18_witness :
  exists d d' elem,
    construct stub_env ListType
      (ArgsList (C_Descriptor IntType) (ArgsFlags no_flags) no_flags) = Ok d /\
    construct stub_env ListType
      (ArgsList (C_Descriptor IntType) (ArgsFlags no_flags)
         (Build_Flags true true true (Some (VList [])))) = Ok d' /\
    construct stub_env IntType (ArgsFlags no_flags) = Ok elem /\
    ListType__data_instance d = Some elem /\
    ListType__data_instance d' = Some elem.
Proof.
  do 2 eexists.
  destruct (X18_list_flags_stay_with_the_list stub_env IntType (ArgsFlags no_flags)
              no_flags (Build_Flags true true true (Some (VList []))) _ _
              eq_refl eq_refl) as (elem & He & Hd & Hd').
  exists elem. split; [reflexivity|]. split; [reflexivity|].
  repeat split; assumption.
Defined.
